(** * Campaign KPI analyzer: the reconciliation engine of campaign_kpi_app.py

    A shallow embedding of [norm_phone], [compute_kpis] and the validation
    of the script that calls them, the properties of the specification
    that concern them, and further properties read off the code.

    Conventions of the embedding.
    - A Python [str] is the list of its code points ([pystr]).
    - A pandas scalar is a [cell]; [VNaN], [VNone] and [VNaT] are the
      missing values.
    - A DataFrame is a list of column names and a list of rows, each row a
      finite map from column names to cells.
    - Numbers are taken by value as exact rationals ([Qc]): binary
      floating-point rounding and the width of int64 are not modelled.
    - Library functions whose tables are not part of the program
      (Unicode digits, float and timestamp printing, date parsing, the
      regular-expression engine beyond plain patterns) are fields of
      [PyLib]; every definition is parametric in them. *)

From Stdlib Require Import ZArith NArith QArith Qcanon String Ascii Lia.
From stdpp Require Import base option list gmap sorting numbers.

Local Open Scope Z_scope.

(** ** Strings *)

Abbreviation pystr := (list N).

(** An ASCII literal of the source as a Python str. *)
Definition py (s : string) : pystr :=
  map N_of_ascii (list_ascii_of_string s).

(** ** Scalars *)

Inductive cell :=
  | VStr (s : pystr)
  | VInt (z : Z)
  | VFloat (q : Qc)
  | VTime (t : Z)          (* pandas Timestamp, nanoseconds since the epoch *)
  | VDate (d : Z)          (* datetime.date, days since the epoch *)
  | VNaN
  | VNone
  | VNaT.

Global Instance cell_eq_dec : EqDecision cell.
Proof. solve_decision. Defined.

Global Instance cell_inhabited : Inhabited cell := populate VNaN.

(** pandas.isna on a scalar *)
Definition isna (c : cell) : bool :=
  match c with
  | VNaN | VNone | VNaT => true
  | _ => false
  end.

(** ** Exceptions *)

Inductive exn :=
  | KeyError (c : pystr)
  | ValueError
  | TypeError
  | ZeroDivisionError
  | ReError
  | NoObject.

Inductive result (A : Type) :=
  | Ok (a : A)
  | Raise (e : exn).
Arguments Ok {A} a.
Arguments Raise {A} e.

(** ** Library functions taken as parameters *)

Class PyLib := {
  (** [str.isdigit] on a code point above the ASCII range *)
  isdigit_wide : N → bool;
  (** [str(x)] for a float, a Timestamp or a date *)
  str_lib : cell → pystr;
  (** [pd.to_datetime(column, errors="coerce")] at one element of the
      column: the timestamp, or [None] for NaT *)
  to_datetime_lib : list cell → cell → option Z;
  (** does [re.compile(pat, re.IGNORECASE)] raise re.error *)
  re_error_lib : pystr → bool;
  (** [re.compile(pat, re.IGNORECASE).search(text)] found a match *)
  re_search_lib : pystr → pystr → bool;
}.

(** The instance of the closed examples, whose tables hold ASCII strings,
    integers and missing values only: no digit above ASCII, an integer
    parses as a timestamp in nanoseconds (the default unit of
    pd.to_datetime) and nothing else parses, and a pattern outside the
    plain fragment is refused. *)
Definition ascii_lib : PyLib := {|
  isdigit_wide := λ _, false;
  str_lib := λ _, [];
  to_datetime_lib := λ _ c, match c with VInt z => Some z | VTime t => Some t | _ => None end;
  re_error_lib := λ _, true;
  re_search_lib := λ _ _, false;
|}.

(** ** str() *)

Fixpoint uint_digits (u : Decimal.uint) : pystr :=
  match u with
  | Decimal.Nil => []
  | Decimal.D0 u => 48%N :: uint_digits u
  | Decimal.D1 u => 49%N :: uint_digits u
  | Decimal.D2 u => 50%N :: uint_digits u
  | Decimal.D3 u => 51%N :: uint_digits u
  | Decimal.D4 u => 52%N :: uint_digits u
  | Decimal.D5 u => 53%N :: uint_digits u
  | Decimal.D6 u => 54%N :: uint_digits u
  | Decimal.D7 u => 55%N :: uint_digits u
  | Decimal.D8 u => 56%N :: uint_digits u
  | Decimal.D9 u => 57%N :: uint_digits u
  end.

Definition int_str (z : Z) : pystr :=
  match Z.to_int z with
  | Decimal.Pos u => uint_digits u
  | Decimal.Neg u => 45%N :: uint_digits u
  end.

Section Program.
Context {L : PyLib}.

Definition str (x : cell) : pystr :=
  match x with
  | VStr s => s
  | VInt z => int_str z
  | VNaN => py "nan"
  | VNone => py "None"
  | VNaT => py "NaT"
  | VFloat _ | VTime _ | VDate _ => str_lib x
  end.

(** ** norm_phone *)

Definition isdigit (ch : N) : bool :=
  if (ch <? 128)%N then (48 <=? ch)%N && (ch <=? 57)%N else isdigit_wide ch.

Fixpoint startswith (s p : pystr) {struct p} : bool :=
  match p, s with
  | [], _ => true
  | c :: p', a :: s' => (a =? c)%N && startswith s' p'
  | _ :: _, [] => false
  end.

(** "".join(ch for ch in s if ch.isdigit()) *)
Fixpoint join_digits (s : pystr) : pystr :=
  match s with
  | [] => []
  | ch :: s' => if isdigit ch then ch :: join_digits s' else join_digits s'
  end.

Definition norm_phone (x : cell) : pystr :=
  let s := join_digits (str x) in
  if startswith s (py "974") then s
  else if (length s =? 8)%nat then py "974" ++ s
  else s.

(** ** DataFrames *)

Record frame := Frame {
  columns : list pystr;
  rows : list (gmap pystr cell);
}.

Definition cell_at (c : pystr) (r : gmap pystr cell) : cell :=
  default VNaN (r !! c).

(** df[c] *)
Definition column (c : pystr) (df : frame) : result (list cell) :=
  if decide (c ∈ columns df) then Ok (map (cell_at c) (rows df))
  else Raise (KeyError c).

(** df[c] = values *)
Definition set_column (c : pystr) (values : list cell) (df : frame) : result frame :=
  if decide (length values = length (rows df)) then
    Ok {| columns := if decide (c ∈ columns df) then columns df else columns df ++ [c];
          rows := zip_with (λ r v, <[c := v]> r) (rows df) values |}
  else Raise ValueError.

(** df[mask], the mask computed from a column of df *)
Fixpoint select_rows (rs : list (gmap pystr cell)) (mask : list bool) : list (gmap pystr cell) :=
  match rs, mask with
  | r :: rs', b :: mask' =>
      if b then r :: select_rows rs' mask' else select_rows rs' mask'
  | _, _ => []
  end.

Definition select (mask : list bool) (df : frame) : frame :=
  {| columns := columns df; rows := select_rows (rows df) mask |}.

(** df[[c1, ..., cn]] *)
Definition project (cs : list pystr) (df : frame) : result frame :=
  match filter (λ c, c ∉ columns df) cs with
  | [] => Ok {| columns := cs;
                rows := map (filter (λ kv : pystr * cell, kv.1 ∈ cs)) (rows df) |}
  | c :: _ => Raise (KeyError c)
  end.

(** df.drop_duplicates() *)
Definition drop_duplicates (df : frame) : frame :=
  {| columns := columns df; rows := remove_dups (rows df) |}.

(** left.merge(right, on=key, how="inner"): the rows of left in their order,
    each paired with the rows of right that carry the same key.  The right
    frame of this program has the key column alone, so no column of the
    result needs a suffix. *)
Definition merge_inner (left right : frame) (key : pystr) : result frame :=
  if decide (key ∈ columns left) then
    if decide (key ∈ columns right) then
      Ok {| columns := columns left ++ filter (λ c, c ≠ key) (columns right);
            rows := l ← rows left; r ← rows right;
                    if decide (cell_at key l = cell_at key r) then [l ∪ r] else [] |}
    else Raise (KeyError key)
  else Raise (KeyError key).

(** Series.nunique(): distinct values, missing ones left out.  A numeric
    column has one dtype, so an integer and a float of the same value,
    which pandas would count once, do not meet in a column. *)
Definition nunique (col : list cell) : nat :=
  length (remove_dups (filter (λ c, isna c = false) col)).

(** ** Numbers *)

Inductive pynum :=
  | Num (q : Qc)
  | NaN.

(** bool(x): zero is false, NaN is true *)
Definition truthy (x : pynum) : bool :=
  match x with
  | Num q => negb (bool_decide (q = Q2Qc 0))
  | NaN => true
  end.

(** x or y *)
Definition py_or (x y : pynum) : pynum := if truthy x then x else y.

Definition Qc_of_nat (n : nat) : Qc := Qc_of_Z (Z.of_nat n).

Definition quotient (x : pynum) (n : nat) : pynum :=
  match x with Num q => Num (q / Qc_of_nat n)%Qc | NaN => NaN end.

(** x / n for a count n; Python raises on n = 0 *)
Definition truediv (x : pynum) (n : nat) : result pynum :=
  match n with
  | O => Raise ZeroDivisionError
  | S _ => Ok (quotient x n)
  end.

Definition times (x : pynum) (k : Z) : pynum :=
  match x with Num q => Num (q * Qc_of_Z k)%Qc | NaN => NaN end.

Definition num_of (c : cell) : result (option Qc) :=
  match c with
  | VInt z => Ok (Some (Qc_of_Z z))
  | VFloat q => Ok (Some q)
  | VNaN | VNone | VNaT => Ok None
  | VStr _ | VTime _ | VDate _ => Raise TypeError
  end.

Global Instance result_ret : MRet result := λ A a, Ok a.
Global Instance result_bind : MBind result := λ A B k m,
  match m with Ok a => k a | Raise e => Raise e end.

Fixpoint traverse {A B} (f : A → result B) (l : list A) : result (list B) :=
  match l with
  | [] => Ok []
  | a :: l' => b ← f a; bs ← traverse f l'; Ok (b :: bs)
  end.

(** Series.sum(min_count=k): missing values are skipped, fewer than k
    present values give NaN.  A string or a date in the column makes the
    call of compute_kpis fail (at the sum, at the division or when the
    metric is formatted); the embedding raises at the sum. *)
Definition col_sum (min_count : nat) (col : list cell) : result pynum :=
  vals ← traverse num_of col;
  let present := omap id vals in
  Ok (if (length present <? min_count)%nat then NaN
      else Num (foldr Qcplus (Q2Qc 0) present)).

(** ** Dates *)

(** errors="coerce": what does not parse becomes NaT *)
Definition coerce (o : option Z) : cell :=
  match o with Some t => VTime t | None => VNaT end.

Definition to_datetime (col : list cell) : list cell :=
  map (λ c, coerce (to_datetime_lib col c)) col.

(** column >= bound and column <= bound: NaT compares false *)
Definition ge_ts (bound : Z) (c : cell) : bool :=
  match c with VTime t => bound <=? t | _ => false end.
Definition le_ts (bound : Z) (c : cell) : bool :=
  match c with VTime t => t <=? bound | _ => false end.

Definition ns_per_day : Z := 86400000000000.

(** Series.dt.date *)
Definition dt_date (c : cell) : cell :=
  match c with VTime t => VDate (t `div` ns_per_day) | _ => VNaT end.

Definition as_date (c : cell) : option Z :=
  match c with VDate d => Some d | _ => None end.

(** ** Series.str.contains(pat, case=False, na=False)

    pandas compiles [pat] as a regular expression with re.IGNORECASE and
    searches it in every string of the column; a cell that is not a string
    gives False.  A pattern of ASCII characters whose only special
    character is the dot is matched here; the rest is the library's. *)

Definition re_special (c : N) : bool :=
  bool_decide (c ∈ py "\^$.|?*+()[]{}").

Definition simple_pattern (p : pystr) : bool :=
  forallb (λ c, (c <? 128)%N && (negb (re_special c) || (c =? 46)%N)) p.

Definition is_ascii (s : pystr) : bool := forallb (λ c, (c <? 128)%N) s.

Definition lower_ascii (c : N) : N :=
  if (65 <=? c)%N && (c <=? 90)%N then (c + 32)%N else c.

Definition atom_match (p a : N) : bool :=
  if (p =? 46)%N then negb (a =? 10)%N
  else (lower_ascii p =? lower_ascii a)%N.

Fixpoint match_here (p t : pystr) {struct p} : bool :=
  match p, t with
  | [], _ => true
  | c :: p', a :: t' => atom_match c a && match_here p' t'
  | _ :: _, [] => false
  end.

Fixpoint search (p t : pystr) {struct t} : bool :=
  match_here p t || match t with [] => false | _ :: t' => search p t' end.

Definition contains1 (pat : pystr) (c : cell) : bool :=
  match c with
  | VStr s => if is_ascii s then search pat s else re_search_lib pat s
  | _ => false
  end.

Definition contains_lib (pat : pystr) (c : cell) : bool :=
  match c with
  | VStr s => re_search_lib pat s
  | _ => false
  end.

Definition str_contains (pat : pystr) (col : list cell) : result (list bool) :=
  if simple_pattern pat then Ok (map (contains1 pat) col)
  else if re_error_lib pat then Raise ReError
  else Ok (map (contains_lib pat) col).

(** ** str.strip() *)

Definition isspace (c : N) : bool :=
  bool_decide (c ∈ [9; 10; 11; 12; 13; 28; 29; 30; 31; 32; 133; 160; 5760;
                    8192; 8193; 8194; 8195; 8196; 8197; 8198; 8199; 8200;
                    8201; 8202; 8232; 8233; 8239; 8287; 12288]%N).

Fixpoint lstrip (s : pystr) : pystr :=
  match s with
  | c :: s' => if isspace c then lstrip s' else s
  | [] => []
  end.

Definition strip (s : pystr) : pystr := reverse (lstrip (reverse (lstrip s))).

(** ** Objects

    DataFrames are objects: a variable holds a reference into the store, an
    item assignment [df[c] = v] updates the object in place, and [copy],
    boolean indexing and [merge] make new objects. *)

Abbreviation store := (list frame).

Definition M (A : Type) : Type := store → result A * store.

Definition ret {A} (a : A) : M A := λ σ, (Ok a, σ).

Definition bind {A B} (m : M A) (k : A → M B) : M B := λ σ,
  match m σ with
  | (Ok a, σ') => k a σ'
  | (Raise e, σ') => (Raise e, σ')
  end.

Definition lift {A} (r : result A) : M A := λ σ, (r, σ).

Definition new (df : frame) : M nat := λ σ, (Ok (length σ), σ ++ [df]).

Definition deref (ref : nat) : M frame := λ σ,
  match σ !! ref with
  | Some df => (Ok df, σ)
  | None => (Raise NoObject, σ)
  end.

Definition update (ref : nat) (df : frame) : M unit := λ σ,
  (Ok tt, <[ref := df]> σ).

Declare Scope py_scope.
Delimit Scope py_scope with py.
Notation "x <~ m ;; k" := (bind m (λ x, k))
  (at level 100, m at next level, right associativity) : py_scope.
Notation "m ;;; k" := (bind m (λ _, k))
  (at level 100, right associativity) : py_scope.
Local Open Scope py_scope.

(** df.copy() *)
Definition df_copy (ref : nat) : M nat := df <~ deref ref;; new df.

(** df[c] *)
Definition getitem (ref : nat) (c : pystr) : M (list cell) :=
  df <~ deref ref;; lift (column c df).

(** df[c] = values *)
Definition setitem (ref : nat) (c : pystr) (values : list cell) : M unit :=
  df <~ deref ref;; df' <~ lift (set_column c values df);; update ref df'.

(** df[mask] *)
Definition getmask (ref : nat) (mask : list bool) : M nat :=
  df <~ deref ref;; new (select mask df).

(** ** compute_kpis *)

Record kpis := {
  reach_u : nat;
  conv_u : nat;
  conv_rate : pynum;
  total_revenue : pynum;
  total_orders : nat;
  total_units : pynum;
  aov : pynum;
  repeat_count : nat;
  repeat_rate : pynum;
}.

(** One row of the by_day frame (columns day, orders, buyers, revenue). *)
Record daily := {
  day : Z;
  orders : nat;
  buyers : nat;
  revenue : pynum;
}.

(** conv.groupby("_phone")["order_id"].nunique(): one count per identity *)
Definition groupby_nunique (key val : pystr) (df : frame) : result (list nat) :=
  ks ← column key df;
  _ ← column val df;
  Ok (map (λ k, nunique (map (cell_at val)
                           (filter (λ r, cell_at key r = k) (rows df))))
          (remove_dups (filter (λ c, isna c = false) ks))).

(** conv.assign(day=conv["created_at"].dt.date)
        .groupby("day", as_index=False)
        .agg(orders=("order_id","nunique"),
             buyers=(" _phone".strip(),"nunique"),
             revenue=("total_spent","sum"))
    Rows whose day is missing belong to no group; the groups come sorted
    by day. *)
Definition by_day_of (conv : frame) : result (list daily) :=
  created ← column (py "created_at") conv;
  df ← set_column (py "day") (map dt_date created) conv;
  keys ← column (py "day") df;
  _ ← column (py "order_id") df;
  _ ← column (strip (py " _phone")) df;
  _ ← column (py "total_spent") df;
  traverse (λ d,
      let g := filter (λ r, cell_at (py "day") r = VDate d) (rows df) in
      rev ← col_sum 0 (map (cell_at (py "total_spent")) g);
      Ok {| day := d;
            orders := nunique (map (cell_at (py "order_id")) g);
            buyers := nunique (map (cell_at (strip (py " _phone"))) g);
            revenue := rev |})
    (merge_sort Z.le (remove_dups (omap as_date keys))).

(** Lines 37 to 69: the conversions and their metrics, computed from the
    filtered buyers frame and the reach frame without further assignment.
    The metrics are returned by value; the f-string formatting of the
    source's [kpis] dictionary is presentation and is left out. *)
Definition aggregate (reach_u : nat) (bdf rdf : frame)
    : result (kpis * frame * list daily) :=
  keys ← project [py "_phone"] rdf;
  conv ← merge_inner bdf (drop_duplicates keys) (py "_phone");
  cphones ← column (py "_phone") conv;
  let conv_u := nunique cphones in
  conv_rate ← match reach_u with
              | O => Ok (Num (Q2Qc 0))
              | S _ => q ← truediv (Num (Qc_of_nat conv_u)) reach_u;
                       Ok (times q 100)
              end;
  spent ← column (py "total_spent") conv;
  revenue_sum ← col_sum 1 spent;
  let total_revenue := py_or revenue_sum (Num (Q2Qc 0)) in
  order_ids ← column (py "order_id") conv;
  let total_orders := nunique order_ids in
  quantity ← column (py "quantity") conv;
  units_sum ← col_sum 1 quantity;
  let total_units := py_or units_sum (Num (Q2Qc 0)) in
  aov ← match total_orders with
        | O => Ok (Num (Q2Qc 0))
        | S _ => truediv total_revenue total_orders
        end;
  rb ← groupby_nunique (py "_phone") (py "order_id") conv;
  let repeat_count := length (filter (λ n, 1 < n)%nat rb) in
  repeat_rate ← match conv_u with
                | O => Ok (Num (Q2Qc 0))
                | S _ => q ← truediv (Num (Qc_of_nat repeat_count)) conv_u;
                         Ok (times q 100)
                end;
  by_day ← by_day_of conv;
  Ok ({| reach_u := reach_u; conv_u := conv_u; conv_rate := conv_rate;
         total_revenue := total_revenue; total_orders := total_orders;
         total_units := total_units; aov := aov;
         repeat_count := repeat_count; repeat_rate := repeat_rate |},
      conv, by_day).

(** [start] and [end_] are [None] when the argument is absent or false, and
    [Some t] when [pd.to_datetime] of the argument is the timestamp [t]. *)
Definition compute_kpis (buyers reach : nat) (start end_ : option Z)
    (item_filter : option pystr) : M (kpis * frame * list daily) :=
  buyers <~ df_copy buyers;;
  reach <~ df_copy reach;;
  phones <~ getitem buyers (py "phone_number");;
  setitem buyers (py "_phone") (map (λ x, VStr (norm_phone x)) phones);;;
  phones <~ getitem reach (py "phone_number");;
  setitem reach (py "_phone") (map (λ x, VStr (norm_phone x)) phones);;;
  buyers <~ match item_filter with
            | Some ((_ :: _) as pat) =>
                names <~ getitem buyers (py "item_name");;
                mask <~ lift (str_contains pat names);;
                getmask buyers mask
            | _ => ret buyers
            end;;
  created <~ getitem buyers (py "created_at");;
  setitem buyers (py "created_at") (to_datetime created);;;
  buyers <~ match start with
            | Some t =>
                created <~ getitem buyers (py "created_at");;
                getmask buyers (map (ge_ts t) created)
            | None => ret buyers
            end;;
  buyers <~ match end_ with
            | Some t =>
                created <~ getitem buyers (py "created_at");;
                getmask buyers (map (le_ts t) created)
            | None => ret buyers
            end;;
  rphones <~ getitem reach (py "_phone");;
  let reach_u := nunique rphones in
  bphones <~ getitem buyers (py "_phone");;
  let buyers_u := nunique bphones in
  bdf <~ deref buyers;;
  rdf <~ deref reach;;
  lift (aggregate reach_u bdf rdf).

(** A call with the two tables as the only objects in the store. *)
Definition call_compute_kpis (buyers reach : frame) (start end_ : option Z)
    (item_filter : option pystr) : result (kpis * frame * list daily) :=
  (compute_kpis 0 1 start end_ item_filter [buyers; reach]).1.

(** ** The frames along a run, as functions of the argument tables *)

(** df["_phone"] = df["phone_number"].map(norm_phone) *)
Definition with_phone (df : frame) : result frame :=
  phones ← column (py "phone_number") df;
  set_column (py "_phone") (map (λ x, VStr (norm_phone x)) phones) df.

Definition item_stage (item_filter : option pystr) (df : frame) : result frame :=
  match item_filter with
  | Some ((_ :: _) as pat) =>
      names ← column (py "item_name") df;
      mask ← str_contains pat names;
      Ok (select mask df)
  | _ => Ok df
  end.

Definition parse_stage (df : frame) : result frame :=
  created ← column (py "created_at") df;
  set_column (py "created_at") (to_datetime created) df.

Definition bound_stage (cmp : Z → cell → bool) (bound : option Z) (df : frame)
    : result frame :=
  match bound with
  | Some t => created ← column (py "created_at") df;
              Ok (select (map (cmp t) created) df)
  | None => Ok df
  end.

(** The buyers frame after the item filter, before the dates are parsed. *)
Definition item_filtered (buyers : frame) (item_filter : option pystr)
    : result frame :=
  b ← with_phone buyers;
  item_stage item_filter b.

(** The buyers frame that reaches the merge. *)
Definition filtered_buyers (buyers : frame) (start end_ : option Z)
    (item_filter : option pystr) : result frame :=
  b ← item_filtered buyers item_filter;
  b ← parse_stage b;
  b ← bound_stage ge_ts start b;
  bound_stage le_ts end_ b.

(** The normalized identity of a row of an argument table. *)
Definition identity_of (r : gmap pystr cell) : cell :=
  VStr (norm_phone (cell_at (py "phone_number") r)).

(** A row with its "_phone" cell. *)
Definition add_phone (r : gmap pystr cell) : gmap pystr cell :=
  <[py "_phone" := identity_of r]> r.

(** A row with its created_at cell parsed, [col] being the created_at
    column the row belongs to. *)
Definition parse_row (col : list cell) (r : gmap pystr cell) : gmap pystr cell :=
  <[py "created_at" := coerce (to_datetime_lib col (cell_at (py "created_at") r))]> r.

(** The date window on a parsed row. *)
Definition in_window (start end_ : option Z) (r : gmap pystr cell) : bool :=
  match start with
  | Some t => ge_ts t (cell_at (py "created_at") r)
  | None => true
  end &&
  match end_ with
  | Some t => le_ts t (cell_at (py "created_at") r)
  | None => true
  end.

(** The rows of a frame whose created_at lies on the day [d]. *)
Definition rows_on_day (df : frame) (d : Z) : list (gmap pystr cell) :=
  filter (λ r, dt_date (cell_at (py "created_at") r) = VDate d) (rows df).

Definition compute_kpis_fun (buyers reach : frame) (start end_ : option Z)
    (item_filter : option pystr) : result (kpis * frame * list daily) :=
  b ← with_phone buyers;
  r ← with_phone reach;
  b ← item_stage item_filter b;
  b ← parse_stage b;
  b ← bound_stage ge_ts start b;
  b ← bound_stage le_ts end_ b;
  rphones ← column (py "_phone") r;
  _ ← column (py "_phone") b;
  aggregate (nunique rphones) b r.

End Program.

(** ** The item filter as the specification words it *)

Fixpoint has_substring (p t : pystr) {struct t} : bool :=
  startswith t p ||
  match t with
  | [] => false
  | _ :: t' => has_substring p t'
  end.

(** From the specification (4.2): a row is kept when its item_name
    contains the filter string as a substring, case-insensitively; a
    missing item_name never matches. *)
Definition spec_item_match (item_filter : pystr) (c : cell) : bool :=
  match c with
  | VStr s => has_substring (map lower_ascii item_filter) (map lower_ascii s)
  | _ => false
  end.


(** ** Tables on which a call returns *)

(** A cell that a sum accepts: a number or a missing value. *)
Definition numeric (c : cell) : bool :=
  match c with
  | VStr _ | VTime _ | VDate _ => false
  | _ => true
  end.

(** The buyers table has the six columns, and numbers or missing values
    in quantity and total_spent. *)
Definition buyers_ok (df : frame) : Prop :=
  (∀ c, c ∈ map py ["phone_number"; "order_id"; "created_at"; "item_name";
                    "quantity"; "total_spent"]%string → c ∈ columns df) ∧
  ∀ r, r ∈ rows df →
    numeric (cell_at (py "total_spent") r) = true ∧
    numeric (cell_at (py "quantity") r) = true.

(** The filter string compiles as a regular expression. *)
Definition filter_ok `{PyLib} (item_filter : option pystr) : Prop :=
  match item_filter with
  | Some pat => simple_pattern pat = true ∨ re_error_lib pat = false
  | None => True
  end.

(** ** Exceptions that a result may carry *)

Definition no_zero_div {A} (r : result A) : Prop :=
  ∀ e, r = Raise e → e ≠ ZeroDivisionError.

Definition no_key_error {A} (r : result A) : Prop :=
  ∀ c, r ≠ Raise (KeyError c).

(** ** Sample tables *)

Definition mkrow (l : list (string * cell)) : gmap pystr cell :=
  list_to_map (map (λ kv, (py kv.1, kv.2)) l).

Definition buyer_columns : list pystr :=
  map py ["phone_number"; "order_id"; "created_at"; "item_name";
          "quantity"; "total_spent"]%string.

Definition buyer (phone : string) (order : Z) (created item : cell)
    (quantity spent : cell) : gmap pystr cell :=
  mkrow [("phone_number", VStr (py phone)); ("order_id", VInt order);
         ("created_at", created); ("item_name", item);
         ("quantity", quantity); ("total_spent", spent)]%string.

Definition jan1 : Z := 1704067200000000000.   (* 2024-01-01 00:00 *)
Definition jan2 : Z := 1704153600000000000.   (* 2024-01-02 00:00 *)

(** Three order lines: two of one reached customer, the second with a
    date that does not parse and no amount, and one of a customer who was
    not reached. *)
Definition sample_buyers : frame := {|
  columns := buyer_columns;
  rows := [ buyer "12345678" 1 (VInt jan1) (VStr (py "WidgetA")) (VInt 2) (VInt 100);
            buyer "+974 1234 5678" 2 (VStr (py "not-a-date")) (VStr (py "WidgetB")) (VInt 1) VNaN;
            buyer "55550000" 3 (VInt jan2) (VStr (py "WidgetA")) (VInt 1) (VInt 50) ]
|}.

Definition sample_reach : frame := {|
  columns := [py "phone_number"];
  rows := [ mkrow [("phone_number", VStr (py "97412345678"))]%string;
            mkrow [("phone_number", VInt 12345678)]%string;
            mkrow [("phone_number", VInt 66660000)]%string ]
|}.

(** One order line of a customer who was not reached. *)
Definition unmatched_buyers : frame := {|
  columns := buyer_columns;
  rows := [ buyer "55550000" 3 (VInt jan2) (VStr (py "WidgetA")) (VInt 1) (VInt 50) ]
|}.

(** One order line of a reached customer with no amount and no quantity. *)
Definition null_amount_buyers : frame := {|
  columns := buyer_columns;
  rows := [ buyer "12345678" 1 (VInt jan1) (VStr (py "WidgetA")) VNaN VNaN ]
|}.

(** The identities of [sample_reach] in another order, each one once. *)
Definition shuffled_reach : frame := {|
  columns := [py "phone_number"];
  rows := [ mkrow [("phone_number", VInt 66660000)]%string;
            mkrow [("phone_number", VStr (py "1234-5678"))]%string ]
|}.

(** A reach table without a row, and a buyers table with one column. *)
Definition empty_reach : frame := {| columns := [py "phone_number"]; rows := [] |}.

Definition phones_only : frame := {| columns := [py "phone_number"]; rows := [] |}.

(** One order line of a reached customer, for the item WidgetB. *)
Definition widget_b_buyers : frame := {|
  columns := buyer_columns;
  rows := [ buyer "12345678" 1 (VInt jan1) (VStr (py "WidgetB")) (VInt 2) (VInt 100) ]
|}.

(** ** The script around compute_kpis (lines 106 to 146)

    What the page shows once the two files are loaded or not: the request
    to upload, an error that names missing columns, or the outcome of
    compute_kpis.  The widgets themselves are left out. *)

Section Script.
Context {L : PyLib}.

(** needed - set(map(str, df.columns)), the labels being strings.  A
    Python set lists its elements in no fixed order; the list keeps the
    order of [needed]. *)
Definition missing (needed cols : list pystr) : list pystr :=
  filter (λ c, c ∉ cols) needed.

Definition needed_buyers : list pystr :=
  map py ["phone_number"; "order_id"; "created_at"; "item_name";
          "quantity"; "total_spent"]%string.

Definition needed_reach : list pystr := [py "phone_number"].

Inductive page :=
  | UploadBoth
  | BuyersMissing (cs : list pystr)
  | ReachMissing (cs : list pystr)
  | Computed (r : result (kpis * frame * list daily)).

(** item_filter.strip() or None *)
Definition strip_or_none (item_filter : pystr) : option pystr :=
  match strip item_filter with
  | [] => None
  | pat => Some pat
  end.

Definition script (reach_df buyers_df : option frame) (start_date end_date : option Z)
    (item_filter : pystr) : page :=
  match reach_df, buyers_df with
  | Some reach, Some buyers =>
      let missing_b := missing needed_buyers (columns buyers) in
      let missing_r := missing needed_reach (columns reach) in
      match missing_b, missing_r with
      | _ :: _, _ => BuyersMissing missing_b
      | [], _ :: _ => ReachMissing missing_r
      | [], [] =>
          Computed (call_compute_kpis buyers reach start_date end_date
                      (strip_or_none item_filter))
      end
  | _, _ => UploadBoth
  end.

(** conv[["_phone","order_id","created_at","item_name","quantity",
    "total_spent"]], the table of converted customers before it is sorted
    for display. *)
Definition converted_view (conv : frame) : result frame :=
  project (map py ["_phone"; "order_id"; "created_at"; "item_name";
                   "quantity"; "total_spent"]%string) conv.

End Script.

(** ** Amounts of a column *)



(** * Properties *)

Section Properties.
Context {L : PyLib}.

Lemma join_digits_filter (s : pystr) :
  join_digits s = filter (λ ch, isdigit ch = true) s.
Proof.
  induction s as [|ch s IH]; [done|].
  destruct (isdigit ch) eqn:E.
  - rewrite filter_cons_True by done. cbn [join_digits]. rewrite E. by f_equal.
  - rewrite filter_cons_False by (rewrite E; done). cbn [join_digits]. by rewrite E.
Qed.

Lemma startswith_prefix (s p : pystr) :
  startswith s p = true ↔ p `prefix_of` s.
Proof.
  revert s. induction p as [|c p IH]; intros s; simpl.
  - split; [intros _; apply prefix_nil | done].
  - destruct s as [|a s].
    + split; [done|]. intros H. by apply prefix_nil_not in H.
    + rewrite andb_true_iff, N.eqb_eq, IH. split.
      * intros [-> H]. by apply prefix_cons.
      * intros H. split; [by apply prefix_cons_inv_1 in H | by apply prefix_cons_inv_2 in H].
Qed.

Lemma join_digits_idemp (s : pystr) : join_digits (join_digits s) = join_digits s.
Proof.
  induction s as [|ch s IH]; [done|]. cbn [join_digits].
  destruct (isdigit ch) eqn:E; [|done].
  cbn [join_digits]. rewrite E. by f_equal.
Qed.

Lemma join_digits_all (s : pystr) :
  Forall (λ ch, isdigit ch = true) s → join_digits s = s.
Proof.
  induction 1 as [|ch s E _ IH]; [done|].
  cbn [join_digits]. rewrite E. by f_equal.
Qed.

Lemma join_digits_none (s : pystr) :
  (∀ ch, ch ∈ s → isdigit ch = false) → join_digits s = [].
Proof.
  induction s as [|ch s IH]; [done|]. intros H. cbn [join_digits].
  rewrite (H ch) by apply list_elem_of_here.
  apply IH. intros c Hc. apply H. by apply list_elem_of_further.
Qed.

Lemma join_digits_prefixed (s : pystr) :
  join_digits (py "974" ++ s) = py "974" ++ join_digits s.
Proof. reflexivity. Qed.

Lemma startswith_prefixed (s : pystr) : startswith (py "974" ++ s) (py "974") = true.
Proof. reflexivity. Qed.

(** C1.  norm_phone is a total function of the string form of its
    argument.  With s the digits of str(x) in their order: s is returned
    when it begins with "974"; otherwise "974" + s when s has 8 characters;
    otherwise s; and the empty string when str(x) has no digit. *)
Theorem norm_phone_spec (x : cell) :
  let s := filter (λ ch, isdigit ch = true) (str x) in
  (py "974" `prefix_of` s → norm_phone x = s) ∧
  (¬ py "974" `prefix_of` s → length s = 8%nat → norm_phone x = py "974" ++ s) ∧
  (¬ py "974" `prefix_of` s → length s ≠ 8%nat → norm_phone x = s) ∧
  ((∀ ch, ch ∈ str x → isdigit ch = false) → norm_phone x = []).
Proof.
  cbv zeta. rewrite <- join_digits_filter. unfold norm_phone.
  repeat split.
  - intros H. apply startswith_prefix in H. by rewrite H.
  - intros H Hlen.
    destruct (startswith _ _) eqn:E; [by apply startswith_prefix in E|].
    by rewrite Hlen.
  - intros H Hlen.
    destruct (startswith _ _) eqn:E; [done|].
    apply Nat.eqb_neq in Hlen. by rewrite Hlen.
  - intros H. by rewrite (join_digits_none _ H).
Qed.

(** C4, as amended.  For a string d of exactly 8 digits that does not begin
    with "974", norm_phone(d) is "974" + d. *)
Theorem norm_phone_8_digits (d : pystr) :
  length d = 8%nat →
  Forall (λ ch, isdigit ch = true) d →
  ¬ py "974" `prefix_of` d →
  norm_phone (VStr d) = py "974" ++ d.
Proof.
  intros Hlen Hd Hp. unfold norm_phone. cbn [str].
  rewrite (join_digits_all _ Hd).
  destruct (startswith _ _) eqn:E; [by apply startswith_prefix in E|].
  by rewrite Hlen.
Qed.

(** C9.  norm_phone is idempotent: normalising the result of norm_phone
    gives that result again. *)
Theorem norm_phone_idempotent (x : cell) :
  norm_phone (VStr (norm_phone x)) = norm_phone x.
Proof.
  unfold norm_phone. cbn [str].
  destruct (startswith (join_digits (str x)) (py "974")) eqn:E.
  - by rewrite join_digits_idemp, E.
  - destruct (length (join_digits (str x)) =? 8)%nat eqn:E8.
    + by rewrite join_digits_prefixed, join_digits_idemp, startswith_prefixed.
    + by rewrite join_digits_idemp, E, E8.
Qed.

(** ** Running the heap program *)

Lemma bind_run {A B} (m : M A) (k : A → M B) (σ : list frame) :
  bind m k σ =
    match m σ with
    | (Ok a, σ') => k a σ'
    | (Raise e, σ') => (Raise e, σ')
    end.
Proof. reflexivity. Qed.

Lemma deref_ext (σ ext : list frame) (i : nat) (df : frame) :
  ext !! i = Some df → deref (length σ + i) (σ ++ ext) = (Ok df, σ ++ ext).
Proof.
  intros H. unfold deref. rewrite lookup_app_r by lia.
  replace (length σ + i - length σ)%nat with i by lia. by rewrite H.
Qed.

Lemma getitem_ext (σ ext : list frame) (i : nat) (df : frame) (c : pystr) :
  ext !! i = Some df →
  getitem (length σ + i) c (σ ++ ext) = (column c df, σ ++ ext).
Proof. intros H. unfold getitem. rewrite bind_run, (deref_ext _ _ _ _ H). done. Qed.

Lemma update_ext (σ ext : list frame) (i : nat) (df : frame) :
  update (length σ + i) df (σ ++ ext) = (Ok tt, σ ++ <[i := df]> ext).
Proof.
  unfold update. f_equal. rewrite insert_app_r_alt by lia.
  by replace (length σ + i - length σ)%nat with i by lia.
Qed.

Lemma setitem_ext (σ ext : list frame) (i : nat) (df : frame) (c : pystr)
    (v : list cell) :
  ext !! i = Some df →
  setitem (length σ + i) c v (σ ++ ext) =
    match set_column c v df with
    | Ok df' => (Ok tt, σ ++ <[i := df']> ext)
    | Raise e => (Raise e, σ ++ ext)
    end.
Proof.
  intros H. unfold setitem. rewrite bind_run, (deref_ext _ _ _ _ H).
  rewrite bind_run. unfold lift. destruct (set_column c v df); [|done].
  apply update_ext.
Qed.

Lemma new_ext (σ ext : list frame) (df : frame) :
  new df (σ ++ ext) = (Ok (length σ + length ext)%nat, σ ++ (ext ++ [df])).
Proof. unfold new. by rewrite length_app, app_assoc. Qed.

Lemma getmask_ext (σ ext : list frame) (i : nat) (df : frame) (mask : list bool) :
  ext !! i = Some df →
  getmask (length σ + i) mask (σ ++ ext) =
    (Ok (length σ + length ext)%nat, σ ++ (ext ++ [select mask df])).
Proof.
  intros H. unfold getmask. rewrite bind_run, (deref_ext _ _ _ _ H). apply new_ext.
Qed.

Lemma bind_assoc {A B C} (m : M A) (k1 : A → M B) (k2 : B → M C)
    (σ : list frame) :
  bind (bind m k1) k2 σ = bind m (λ x, bind (k1 x) k2) σ.
Proof. unfold bind. by destruct (m σ) as [[a|e] σ']. Qed.

(** One step of the run: the next action on a store of the shape
    [σ ++ ext], or the case split on the result it depends on. *)
Ltac heap_step :=
  lazymatch goal with
  | |- bind (bind _ _) _ _ = _ → _ => rewrite bind_assoc
  | |- bind (getitem _ _) _ _ = _ → _ =>
      rewrite bind_run; erewrite getitem_ext by reflexivity
  | |- bind (setitem _ _ _) _ _ = _ → _ =>
      rewrite bind_run; erewrite setitem_ext by reflexivity
  | |- bind (getmask _ _) _ _ = _ → _ =>
      rewrite bind_run; erewrite getmask_ext by reflexivity
  | |- bind (deref _) _ _ = _ → _ =>
      rewrite bind_run; erewrite deref_ext by reflexivity
  | |- bind (lift _) _ _ = _ → _ => rewrite bind_run; unfold lift at 1
  | |- bind (ret _) _ _ = _ → _ => rewrite bind_run; unfold ret at 1
  | |- lift _ _ = _ → _ => unfold lift at 1
  | |- match ?x with Ok _ => _ | Raise _ => _ end = _ → _ => destruct x eqn:?
  | |- (let (_, _) := match ?x with Ok _ => _ | Raise _ => _ end in _) = _ → _ =>
      destruct x eqn:?
  | |- (_, _) = _ → _ =>
      intros [= <- <-]; split; [done | apply prefix_app_r; done]
  end;
  cbn beta iota delta [insert list_insert length app Nat.add].

(** A run on a store that holds the two tables computes what
    [compute_kpis_fun] computes from them, and extends the store. *)
Lemma compute_kpis_run (σ : list frame) (b r : nat) (B R : frame)
    (s e : option Z) (f : option pystr) :
  σ !! b = Some B → σ !! r = Some R →
  (compute_kpis b r s e f σ).1 = compute_kpis_fun B R s e f ∧
  σ `prefix_of` (compute_kpis b r s e f σ).2.
Proof.
  intros HB HR.
  destruct (compute_kpis b r s e f σ) as [res σ'] eqn:Hrun. simpl. revert Hrun.
  unfold compute_kpis, compute_kpis_fun, df_copy.
  rewrite bind_run. rewrite bind_run. unfold deref at 1. rewrite HB.
  replace σ with (σ ++ []) at 1 by apply app_nil_r.
  rewrite new_ext. cbn [length app].
  rewrite bind_run. rewrite bind_run. unfold deref at 1.
  rewrite lookup_app_l by (by eapply lookup_lt_Some). rewrite HR.
  rewrite new_ext. cbn [length app].
  unfold with_phone, item_stage, parse_stage, bound_stage.
  unfold mbind, result_bind.
  destruct f as [[|ch pat]|], s as [ts|], e as [te|];
    repeat heap_step.
Qed.

Lemma call_compute_kpis_fun (B R : frame) (s e : option Z) (f : option pystr) :
  call_compute_kpis B R s e f = compute_kpis_fun B R s e f.
Proof. by apply (compute_kpis_run [B; R] 0 1 B R). Qed.

(** C10.  compute_kpis leaves every object of the caller's store as it
    was, the buyers and the reach table among them: whatever the call
    returns or raises, it only adds objects of its own. *)
Theorem compute_kpis_frame_effect (σ : list frame) (b r : nat) (s e : option Z)
    (f : option pystr) (B R : frame) :
  σ !! b = Some B → σ !! r = Some R →
  let σ' := (compute_kpis b r s e f σ).2 in
  σ' !! b = Some B ∧ σ' !! r = Some R ∧
  ∀ ref df, σ !! ref = Some df → σ' !! ref = Some df.
Proof.
  intros HB HR σ'.
  assert (∀ ref df, σ !! ref = Some df → σ' !! ref = Some df) as H.
  { intros ref df Hdf. eapply prefix_lookup_Some; [done|].
    by eapply compute_kpis_run. }
  auto.
Qed.

(** ** Results *)

Lemma bind_Ok {A B} (m : result A) (k : A → result B) (b : B) :
  m ≫= k = Ok b → ∃ a, m = Ok a ∧ k a = Ok b.
Proof. destruct m as [a|e]; [|done]. intros H. by exists a. Qed.

Ltac inv_ok H :=
  repeat (cbv zeta in H;
          lazymatch type of H with
          | (_ ≫= _) = Ok _ => apply bind_Ok in H as (? & ? & H)
          end).

Lemma traverse_Ok {A B} (f : A → result B) (l : list A) (bs : list B) :
  traverse f l = Ok bs → Forall2 (λ a b, f a = Ok b) l bs.
Proof.
  revert bs. induction l as [|a l IH]; intros bs H; simpl in H.
  - injection H as <-. constructor.
  - inv_ok H. injection H as <-. constructor; auto.
Qed.

(** ** Columns and rows *)

Lemma column_Ok (c : pystr) (df : frame) (col : list cell) :
  column c df = Ok col → c ∈ columns df ∧ col = map (cell_at c) (rows df).
Proof. unfold column. case_decide; [|done]. by intros [= <-]. Qed.

Lemma zip_with_map_r {A B C} (f : A → B → C) (g : A → B) (l : list A) :
  zip_with f l (map g l) = map (λ a, f a (g a)) l.
Proof. induction l as [|a l IH]; [done|]. simpl. by f_equal. Qed.

Lemma set_column_Ok (c : pystr) (g : gmap pystr cell → cell) (df df' : frame) :
  set_column c (map g (rows df)) df = Ok df' →
  rows df' = map (λ r, <[c := g r]> r) (rows df) ∧
  c ∈ columns df' ∧ (∀ c', c' ∈ columns df → c' ∈ columns df').
Proof.
  unfold set_column. case_decide; [|done]. intros [= <-]. simpl.
  split; [apply zip_with_map_r|]. case_decide.
  - done.
  - split; [|intros c' Hc']; apply elem_of_app; [right|by left].
    apply list_elem_of_here.
Qed.

Lemma select_rows_map (p : gmap pystr cell → bool) (rs : list (gmap pystr cell)) :
  select_rows rs (map p rs) = filter (λ r, p r = true) rs.
Proof.
  induction rs as [|r rs IH]; [done|]. cbn [map select_rows].
  destruct (p r) eqn:E.
  - rewrite filter_cons_True by done. by f_equal.
  - rewrite filter_cons_False by (by rewrite E). done.
Qed.

Lemma filter_all {A} (P : A → Prop) `{∀ x, Decision (P x)} (l : list A) :
  (∀ x, P x) → filter P l = l.
Proof.
  intros HP. induction l as [|x l IH]; [done|].
  rewrite filter_cons_True by done. by f_equal.
Qed.

Lemma cell_at_insert (c : pystr) (v : cell) (r : gmap pystr cell) :
  cell_at c (<[c := v]> r) = v.
Proof. unfold cell_at. by rewrite lookup_insert_eq. Qed.

Lemma cell_at_insert_ne (c c' : pystr) (v : cell) (r : gmap pystr cell) :
  c ≠ c' → cell_at c' (<[c := v]> r) = cell_at c' r.
Proof. intros H. unfold cell_at. by rewrite lookup_insert_ne. Qed.

Lemma with_phone_Ok (df df' : frame) :
  with_phone df = Ok df' →
  rows df' = map add_phone (rows df) ∧ py "_phone" ∈ columns df' ∧
  (∀ c, c ∈ columns df → c ∈ columns df').
Proof.
  unfold with_phone. intros H. inv_ok H.
  apply column_Ok in H0 as [_ ->]. rewrite map_map in H.
  by apply set_column_Ok in H.
Qed.

Lemma item_stage_Ok (f : option pystr) (df df' : frame) :
  item_stage f df = Ok df' →
  columns df' = columns df ∧
  ∃ p : cell → bool,
    rows df' = filter (λ r, p (cell_at (py "item_name") r) = true) (rows df).
Proof.
  assert (rows df = filter (λ r, (λ _ : cell, true) (cell_at (py "item_name") r) = true)
                           (rows df)) as Hall.
  { symmetry. by apply filter_all. }
  unfold item_stage. destruct f as [[|ch pat]|].
  - intros [= <-]. split; [done|]. by exists (λ _, true).
  - intros H. inv_ok H. injection H as <-. split; [done|].
    apply column_Ok in H0 as [_ ->]. unfold str_contains in H1.
    destruct (simple_pattern _).
    + injection H1 as <-. exists (contains1 (ch :: pat)). cbn [select rows].
      rewrite map_map. apply select_rows_map.
    + destruct (re_error_lib _); [done|]. injection H1 as <-.
      exists (contains_lib (ch :: pat)). cbn [select rows].
      rewrite map_map. apply select_rows_map.
  - intros [= <-]. split; [done|]. by exists (λ _, true).
Qed.

Lemma parse_stage_Ok (df df' : frame) :
  parse_stage df = Ok df' →
  rows df' = map (parse_row (map (cell_at (py "created_at")) (rows df))) (rows df) ∧
  (∀ c, c ∈ columns df → c ∈ columns df').
Proof.
  unfold parse_stage. intros H. inv_ok H.
  apply column_Ok in H0 as [_ ->]. unfold to_datetime in H.
  rewrite map_map in H. apply set_column_Ok in H as (? & ? & ?). done.
Qed.

Lemma bound_stage_Ok (cmp : Z → cell → bool) (bound : option Z) (df df' : frame) :
  bound_stage cmp bound df = Ok df' →
  columns df' = columns df ∧
  rows df' = filter (λ r, match bound with
                          | Some t => cmp t (cell_at (py "created_at") r)
                          | None => true
                          end = true) (rows df).
Proof.
  unfold bound_stage. destruct bound as [t|].
  - intros H. inv_ok H. injection H as <-. split; [done|].
    apply column_Ok in H0 as [_ ->]. cbn [select rows].
    rewrite map_map. apply select_rows_map.
  - intros [= <-]. split; [done|]. symmetry. by apply filter_all.
Qed.


(** ** The merge with the reach identities *)

Lemma filter_phone_key (r : gmap pystr cell) (v : cell) :
  filter (λ kv : pystr * cell, kv.1 ∈ [py "_phone"]) (<[py "_phone" := v]> r)
  = {[py "_phone" := v]}.
Proof.
  apply map_eq. intros c. destruct (decide (c = py "_phone")) as [->|Hc].
  - rewrite lookup_singleton_eq. apply map_lookup_filter_Some.
    split; [apply lookup_insert_eq | apply list_elem_of_here].
  - rewrite lookup_singleton_ne by done. apply map_lookup_filter_None.
    right. intros x _ Hin. cbn in Hin. by apply list_elem_of_singleton in Hin.
Qed.

Lemma project_phone_Ok (R r1 keys : frame) :
  with_phone R = Ok r1 → project [py "_phone"] r1 = Ok keys →
  columns keys = [py "_phone"] ∧
  rows keys = map (λ r, {[py "_phone" := identity_of r]}) (rows R).
Proof.
  intros H1 H2. apply with_phone_Ok in H1 as (Hrows & Hcol & _).
  unfold project in H2. rewrite filter_cons_False in H2 by (intros ?; done).
  rewrite filter_nil in H2. injection H2 as <-. split; [done|]. cbn [rows].
  rewrite Hrows, map_map. apply map_ext. intros r. apply filter_phone_key.
Qed.

Lemma union_singleton_id (l : gmap pystr cell) (c : pystr) (v : cell) :
  l !! c = Some v → l ∪ {[c := v]} = l.
Proof.
  intros H. apply map_eq. intros i. rewrite lookup_union.
  destruct (decide (i = c)) as [->|Hi].
  - by rewrite H, lookup_singleton_eq.
  - rewrite lookup_singleton_ne by done. by destruct (l !! i).
Qed.

Lemma merge_row (l : gmap pystr cell) (c : pystr) (v : cell) (ids : list cell) :
  l !! c = Some v → NoDup ids →
  (r ← map (λ w, {[c := w]}) ids;
   if decide (cell_at c l = cell_at c r) then [l ∪ r] else [])
  = if decide (v ∈ ids) then [l] else [].
Proof.
  intros Hl. assert (cell_at c l = v) as -> by (unfold cell_at; by rewrite Hl).
  induction 1 as [|w ids Hw Hnd IH]; [done|].
  cbn [map]. rewrite bind_cons, IH.
  replace (cell_at c ({[c := w]} : gmap pystr cell)) with w
    by (unfold cell_at; by rewrite lookup_singleton_eq).
  destruct (decide (v = w)) as [->|Hvw].
  - rewrite (union_singleton_id _ _ _ Hl).
    rewrite decide_False by done. rewrite decide_True by apply list_elem_of_here.
    done.
  - destruct (decide (v ∈ ids)) as [Hin|Hin].
    + rewrite decide_True by (by apply list_elem_of_further). done.
    + rewrite decide_False; [done|]. intros [?|?]%elem_of_cons; done.
Qed.

Lemma remove_dups_fmap_singleton (c : pystr) (ids : list cell) :
  remove_dups (map (λ w, ({[c := w]} : gmap pystr cell)) ids)
  = map (λ w, {[c := w]}) (remove_dups ids).
Proof.
  assert (Inj (=) (=) (λ w : cell, ({[c := w]} : gmap pystr cell))) as Hinj.
  { intros w1 w2 Hw. apply (f_equal (λ m : gmap pystr cell, m !! c)) in Hw.
    rewrite !lookup_singleton_eq in Hw. congruence. }
  induction ids as [|w ids IH]; [done|]. cbn [map remove_dups].
  destruct (decide_rel elem_of w ids) as [Hin|Hin];
    destruct (decide_rel elem_of _ (map _ ids)) as [Hin2|Hin2].
  - done.
  - destruct Hin2. by apply (list_elem_of_fmap_2 (λ w, {[c := w]})).
  - apply list_elem_of_fmap in Hin2 as (w' & Hw' & Hin').
    apply Hinj in Hw'. by subst.
  - cbn [map]. by f_equal.
Qed.

Lemma merge_reach_Ok (b R r1 keys conv : frame) :
  with_phone R = Ok r1 → project [py "_phone"] r1 = Ok keys →
  (∀ l, l ∈ rows b → is_Some (l !! py "_phone")) →
  merge_inner b (drop_duplicates keys) (py "_phone") = Ok conv →
  columns conv = columns b ∧
  rows conv = filter (λ l, cell_at (py "_phone") l ∈ map identity_of (rows R)) (rows b).
Proof.
  intros H1 H2 Hkey H. destruct (project_phone_Ok _ _ _ H1 H2) as [Hc Hr].
  unfold merge_inner in H. repeat case_decide; try done.
  injection H as <-. cbn [columns rows drop_duplicates]. split.
  - rewrite Hc. rewrite filter_cons_False by (intros ?; done).
    by rewrite filter_nil, app_nil_r.
  - rewrite Hr. rewrite <- (map_map identity_of (λ w, {[py "_phone" := w]})).
    rewrite remove_dups_fmap_singleton.
    induction (rows b) as [|l ls IH]; [done|].
    rewrite bind_cons.
    destruct (Hkey l) as [v Hv]; [apply list_elem_of_here|].
    rewrite (merge_row l _ v) by (done || apply NoDup_remove_dups).
    rewrite IH by (intros; apply Hkey; by apply list_elem_of_further).
    assert (cell_at (py "_phone") l = v) as Hcv by (unfold cell_at; by rewrite Hv).
    destruct (decide (v ∈ remove_dups (map identity_of (rows R)))) as [Hin|Hin];
      rewrite elem_of_remove_dups in Hin.
    + rewrite filter_cons_True by (by rewrite Hcv). done.
    + rewrite filter_cons_False by (by rewrite Hcv). done.
Qed.


(** ** The frames along a run *)

Ltac py_ne := let H := fresh in intros H; vm_compute in H; discriminate H.

Lemma item_filtered_Ok (B b2 : frame) (f : option pystr) :
  item_filtered B f = Ok b2 →
  py "_phone" ∈ columns b2 ∧
  ∃ p : cell → bool,
    rows b2 = filter (λ r, p (cell_at (py "item_name") r) = true)
                     (map add_phone (rows B)).
Proof.
  unfold item_filtered. intros H. inv_ok H.
  apply with_phone_Ok in H0 as (Hr & Hc & _).
  apply item_stage_Ok in H as (Hc' & p & Hp).
  rewrite Hc'. split; [done|]. exists p. by rewrite Hp, Hr.
Qed.

Lemma filtered_buyers_Ok (B b5 : frame) (s e : option Z) (f : option pystr) :
  filtered_buyers B s e f = Ok b5 →
  ∃ b2, item_filtered B f = Ok b2 ∧
    rows b5 = filter (λ r, in_window s e r = true)
                (map (parse_row (map (cell_at (py "created_at")) (rows b2)))
                     (rows b2)).
Proof.
  unfold filtered_buyers. intros H. inv_ok H. exists x. split; [done|].
  apply parse_stage_Ok in H1 as (Hr1 & _).
  apply bound_stage_Ok in H2 as (_ & Hr2).
  apply bound_stage_Ok in H as (_ & Hr3).
  rewrite Hr3, Hr2, Hr1, list_filter_filter. apply list_filter_iff.
  intros r. unfold in_window. rewrite andb_true_iff. tauto.
Qed.

Lemma filtered_buyers_phone (B b5 : frame) (s e : option Z) (f : option pystr) :
  filtered_buyers B s e f = Ok b5 →
  ∀ l, l ∈ rows b5 →
    l !! py "_phone" = Some (identity_of l) ∧
    ∃ t, l !! py "created_at" = Some (coerce t).
Proof.
  intros H l Hl. apply filtered_buyers_Ok in H as (b2 & H2 & Hr).
  apply item_filtered_Ok in H2 as (_ & p & Hp).
  rewrite Hr in Hl. apply list_elem_of_filter in Hl as [_ Hl].
  apply list_elem_of_fmap in Hl as (r & -> & Hl).
  rewrite Hp in Hl. apply list_elem_of_filter in Hl as [_ Hl].
  apply list_elem_of_fmap in Hl as (r0 & -> & _).
  unfold parse_row, add_phone. split.
  - rewrite lookup_insert_ne by py_ne. rewrite lookup_insert_eq.
    unfold identity_of. f_equal. f_equal. f_equal.
    rewrite cell_at_insert_ne by py_ne. by rewrite cell_at_insert_ne by py_ne.
  - eexists. by rewrite lookup_insert_eq.
Qed.

Lemma call_Ok (B R : frame) (s e : option Z) (f : option pystr)
    (k : kpis) (conv : frame) (bd : list daily) :
  call_compute_kpis B R s e f = Ok (k, conv, bd) →
  ∃ b5 r1, filtered_buyers B s e f = Ok b5 ∧ with_phone R = Ok r1 ∧
    aggregate (nunique (map identity_of (rows R))) b5 r1 = Ok (k, conv, bd).
Proof.
  rewrite call_compute_kpis_fun. unfold compute_kpis_fun. intros H. inv_ok H.
  exists x4, x0. split; [|split; [done|]].
  - unfold filtered_buyers, item_filtered. cbn.
    rewrite H0. cbn. rewrite H2. cbn. rewrite H3. cbn. by rewrite H4.
  - apply column_Ok in H6 as [_ ->].
    apply with_phone_Ok in H1 as (Hr & _). rewrite Hr, map_map in H.
    erewrite map_ext; [exact H|]. intros r. symmetry. apply cell_at_insert.
Qed.

Lemma aggregate_Ok (n : nat) (b r : frame) (k : kpis) (conv : frame) (bd : list daily) :
  aggregate n b r = Ok (k, conv, bd) →
  ∃ keys rs us rb,
    project [py "_phone"] r = Ok keys ∧
    merge_inner b (drop_duplicates keys) (py "_phone") = Ok conv ∧
    by_day_of conv = Ok bd ∧
    col_sum 1 (map (cell_at (py "total_spent")) (rows conv)) = Ok rs ∧
    col_sum 1 (map (cell_at (py "quantity")) (rows conv)) = Ok us ∧
    groupby_nunique (py "_phone") (py "order_id") conv = Ok rb ∧
    reach_u k = n ∧
    conv_u k = nunique (map (cell_at (py "_phone")) (rows conv)) ∧
    match reach_u k with
    | O => Ok (Num (Q2Qc 0))
    | S _ => q ← truediv (Num (Qc_of_nat (conv_u k))) (reach_u k); Ok (times q 100)
    end = Ok (conv_rate k) ∧
    total_revenue k = py_or rs (Num (Q2Qc 0)) ∧
    total_orders k = nunique (map (cell_at (py "order_id")) (rows conv)) ∧
    total_units k = py_or us (Num (Q2Qc 0)) ∧
    match total_orders k with
    | O => Ok (Num (Q2Qc 0))
    | S _ => truediv (total_revenue k) (total_orders k)
    end = Ok (aov k) ∧
    repeat_count k = length (filter (λ m, 1 < m)%nat rb) ∧
    match conv_u k with
    | O => Ok (Num (Q2Qc 0))
    | S _ => q ← truediv (Num (Qc_of_nat (repeat_count k))) (conv_u k); Ok (times q 100)
    end = Ok (repeat_rate k).
Proof.
  unfold aggregate. intros H. inv_ok H. injection H as <- <- <-.
  repeat match goal with
         | H : column _ _ = Ok _ |- _ => apply column_Ok in H as [_ ->]
         end.
  eexists _, _, _, _. cbn. repeat split; try eassumption; reflexivity.
Qed.

Lemma call_conv (B R : frame) (s e : option Z) (f : option pystr)
    (k : kpis) (conv : frame) (bd : list daily) :
  call_compute_kpis B R s e f = Ok (k, conv, bd) →
  ∃ b5, filtered_buyers B s e f = Ok b5 ∧
    columns conv = columns b5 ∧
    rows conv = filter (λ l, cell_at (py "_phone") l ∈ map identity_of (rows R))
                       (rows b5).
Proof.
  intros H. apply call_Ok in H as (b5 & r1 & H5 & H1 & H).
  exists b5. split; [done|].
  apply aggregate_Ok in H as (keys & _ & _ & _ & Hk & Hm & _).
  eapply (merge_reach_Ok b5 R r1 keys conv); eauto.
  intros l Hl. by destruct (filtered_buyers_phone _ _ _ _ _ H5 l Hl) as [-> _].
Qed.


(** ** Distinct counts and rates *)

Lemma nunique_le (l l' : list cell) :
  (∀ x, x ∈ l → isna x = false → x ∈ l') → (nunique l ≤ nunique l')%nat.
Proof.
  intros H. unfold nunique. apply submseteq_length, NoDup_submseteq.
  - apply NoDup_remove_dups.
  - intros x. rewrite !elem_of_remove_dups, !list_elem_of_filter.
    intros [Hx Hin]. auto.
Qed.

Lemma ratio_bounds (a b : Z) :
  (0 ≤ a ≤ b)%Z → (0 < b)%Z →
  (0 <= inject_Z a / inject_Z b * inject_Z 100)%Q ∧
  (inject_Z a / inject_Z b * inject_Z 100 <= inject_Z 100)%Q.
Proof.
  intros [Ha Hab] Hb.
  assert (0 < inject_Z b)%Q as Hb' by (unfold Qlt; simpl; lia).
  assert (0 <= inject_Z a / inject_Z b)%Q as H0.
  { apply Qle_shift_div_l; [done|]. rewrite Qmult_0_l. unfold Qle; simpl; lia. }
  assert (inject_Z a / inject_Z b <= 1)%Q as H1.
  { apply Qle_shift_div_r; [done|]. rewrite Qmult_1_l. unfold Qle; simpl; lia. }
  split.
  - apply Qmult_le_0_compat; [done|]. unfold Qle; simpl; lia.
  - rewrite <- (Qmult_1_l (inject_Z 100)) at 2.
    apply Qmult_le_compat_r; [done|]. unfold Qle; simpl; lia.
Qed.

Lemma percent_bounds (a b : nat) :
  (a ≤ b)%nat → (0 < b)%nat →
  (Q2Qc 0 ≤ Qc_of_nat a / Qc_of_nat b * Qc_of_Z 100)%Qc ∧
  (Qc_of_nat a / Qc_of_nat b * Qc_of_Z 100 ≤ Qc_of_Z 100)%Qc.
Proof.
  intros Hab Hb.
  destruct (ratio_bounds (Z.of_nat a) (Z.of_nat b)) as [H0 H1]; [lia..|].
  unfold Qcle, Qcmult, Qcdiv, Qcinv, Qcmult, Qc_of_nat, Qc_of_Z, Q2Qc. cbn [this].
  rewrite !Qred_correct. done.
Qed.


(** ** The daily breakdown *)

Lemma strip_phone : strip (py " _phone") = py "_phone".
Proof. reflexivity. Qed.

Lemma filter_map_comm {A B} (h : A → B) (P : B → Prop) `{∀ y, Decision (P y)}
    (l : list A) :
  filter P (map h l) = map h (filter (λ x, P (h x)) l).
Proof.
  induction l as [|x l IH]; [done|]. cbn [map].
  destruct (decide (P (h x))).
  - rewrite !filter_cons_True by done. cbn [map]. by f_equal.
  - by rewrite !filter_cons_False by done.
Qed.

Lemma sorted_nodup_lt (l : list Z) :
  StronglySorted Z.le l → NoDup l → StronglySorted Z.lt l.
Proof.
  induction 1 as [|x l Hs IH Hx]; intros Hnd; [constructor|].
  inversion Hnd as [|? ? Hin Hnd']; subst. constructor; [auto|].
  rewrite Forall_forall in Hx |- *. intros y Hy.
  specialize (Hx y Hy). apply list_elem_of_In in Hy.
  assert (x ≠ y) by (intros ->; contradiction). lia.
Qed.

Lemma by_day_of_Ok (conv : frame) (bd : list daily) :
  by_day_of conv = Ok bd →
  StronglySorted Z.lt (map day bd) ∧
  (∀ d, d ∈ map day bd ↔ rows_on_day conv d ≠ []) ∧
  Forall (λ g,
    orders g = nunique (map (cell_at (py "order_id")) (rows_on_day conv (day g))) ∧
    buyers g = nunique (map (cell_at (py "_phone")) (rows_on_day conv (day g))) ∧
    col_sum 0 (map (cell_at (py "total_spent")) (rows_on_day conv (day g)))
      = Ok (revenue g)) bd.
Proof.
  unfold by_day_of. rewrite strip_phone. intros H. inv_ok H.
  apply column_Ok in H0 as [_ ->]. rewrite map_map in H1.
  apply set_column_Ok in H1 as (Hrows & _ & _).
  apply column_Ok in H2 as [_ ->]. clear H3 H4 H5.
  rewrite Hrows, map_map in H.
  erewrite (map_ext _ (λ r, dt_date (cell_at (py "created_at") r))) in H
    by (intros r; apply cell_at_insert).
  apply traverse_Ok in H.
  assert (∀ c d, c ≠ py "day" →
    map (cell_at c) (filter (λ r, cell_at (py "day") r = VDate d)
      (map (λ r, <[py "day" := dt_date (cell_at (py "created_at") r)]> r) (rows conv)))
    = map (cell_at c) (rows_on_day conv d)) as Hgroup.
  { intros c d Hc. rewrite filter_map_comm, map_map. unfold rows_on_day.
    erewrite (list_filter_iff _ (λ r, dt_date (cell_at (py "created_at") r) = VDate d))
      by (intros r; by rewrite cell_at_insert).
    apply map_ext. intros r. apply cell_at_insert_ne. congruence. }
  assert (map day bd = merge_sort Z.le (remove_dups (omap as_date
            (map (λ r, dt_date (cell_at (py "created_at") r)) (rows conv)))))
    as Hdays.
  { induction H as [|d g ds gs Hg _ IH]; [done|]. cbn [map]. f_equal; [|done].
    inv_ok Hg. by injection Hg as <-. }
  split; [|split].
  - rewrite Hdays. apply sorted_nodup_lt.
    + apply StronglySorted_merge_sort; apply _.
    + rewrite merge_sort_Permutation. apply NoDup_remove_dups.
  - intros d. rewrite Hdays, merge_sort_Permutation, elem_of_remove_dups.
    rewrite list_elem_of_omap. unfold rows_on_day. split.
    + intros (c & Hc & Hd). apply list_elem_of_fmap in Hc as (r & -> & Hr).
      intros Hnil.
      assert (dt_date (cell_at (py "created_at") r) = VDate d) as Hd'.
      { destruct (dt_date _); try done. cbn in Hd. congruence. }
      assert (r ∈ filter (λ r, dt_date (cell_at (py "created_at") r) = VDate d)
                         (rows conv)) as Hin by (by apply list_elem_of_filter).
      rewrite Hnil in Hin. inversion Hin.
    + intros Hne. destruct (filter _ (rows conv)) as [|r rs] eqn:E; [done|].
      assert (r ∈ filter (λ r, dt_date (cell_at (py "created_at") r) = VDate d) (rows conv))
        as Hr by (rewrite E; apply list_elem_of_here).
      apply list_elem_of_filter in Hr as [Hd Hr].
      exists (VDate d). split; [|done]. rewrite <- Hd.
      by apply (list_elem_of_fmap_2 (λ r, dt_date (cell_at (py "created_at") r))).
  - clear Hdays. induction H as [|d g ds gs Hg _ IH]; constructor; [|done].
    inv_ok Hg. injection Hg as <-. cbn [day orders buyers revenue].
    rewrite !Hgroup in * by py_ne. done.
Qed.


Lemma conv_phones_reached (B R : frame) (s e : option Z) (f : option pystr)
    (k : kpis) (conv : frame) (bd : list daily) :
  call_compute_kpis B R s e f = Ok (k, conv, bd) →
  ∀ r, r ∈ rows conv →
    cell_at (py "_phone") r = identity_of r ∧
    cell_at (py "_phone") r ∈ map identity_of (rows R).
Proof.
  intros H r Hr. apply call_conv in H as (b5 & H5 & _ & Hrows).
  rewrite Hrows in Hr. apply list_elem_of_filter in Hr as [Hin Hr].
  split; [|done].
  destruct (filtered_buyers_phone _ _ _ _ _ H5 r Hr) as [Hp _].
  unfold cell_at at 1. by rewrite Hp.
Qed.

Lemma call_aggregate (B R : frame) (s e : option Z) (f : option pystr)
    (k : kpis) (conv : frame) (bd : list daily) :
  call_compute_kpis B R s e f = Ok (k, conv, bd) →
  ∃ b5 r1, aggregate (nunique (map identity_of (rows R))) b5 r1 = Ok (k, conv, bd).
Proof. intros H. apply call_Ok in H as (b5 & r1 & _ & _ & H). eauto. Qed.

Lemma rate_Ok (a b : nat) (x : pynum) :
  match b with
  | O => Ok (Num (Q2Qc 0))
  | S _ => q ← truediv (Num (Qc_of_nat a)) b; Ok (times q 100)
  end = Ok x →
  (b = 0%nat → x = Num (Q2Qc 0)) ∧
  (b ≠ 0%nat → x = times (quotient (Num (Qc_of_nat a)) b) 100).
Proof.
  destruct b as [|b]; cbn; intros [= <-]; split; intros; done.
Qed.

(** C5.  The distinct converted identities are at most the distinct reach
    identities, and the conversion rate, conv_u / reach_u * 100 or 0 when
    reach_u is 0, is a number between 0 and 100, never NaN. *)
Theorem conversion_rate_bounds (B R : frame) (s e : option Z) (f : option pystr)
    (k : kpis) (conv : frame) (bd : list daily) :
  call_compute_kpis B R s e f = Ok (k, conv, bd) →
  reach_u k = nunique (map identity_of (rows R)) ∧
  conv_u k = nunique (map identity_of (rows conv)) ∧
  (conv_u k ≤ reach_u k)%nat ∧
  (reach_u k = 0%nat → conv_rate k = Num (Q2Qc 0)) ∧
  (reach_u k ≠ 0%nat →
     conv_rate k = Num (Qc_of_nat (conv_u k) / Qc_of_nat (reach_u k) * Qc_of_Z 100)%Qc) ∧
  ∃ q, conv_rate k = Num q ∧ (Q2Qc 0 ≤ q)%Qc ∧ (q ≤ Qc_of_Z 100)%Qc.
Proof.
  intros H. pose proof (conv_phones_reached _ _ _ _ _ _ _ _ H) as Hreached.
  apply call_aggregate in H as (b5 & r1 & H).
  apply aggregate_Ok in H
    as (? & ? & ? & ? & _ & _ & _ & _ & _ & _ & Hru & Hcu & Hrate & _).
  assert (map (cell_at (py "_phone")) (rows conv) = map identity_of (rows conv)) as Hids.
  { apply map_ext_in. intros r Hr. apply list_elem_of_In in Hr.
    by destruct (Hreached r Hr). }
  rewrite Hids in Hcu.
  assert (conv_u k ≤ reach_u k)%nat as Hle.
  { rewrite Hru, Hcu. apply nunique_le. intros c Hc _.
    apply list_elem_of_fmap in Hc as (r & -> & Hr).
    destruct (Hreached r Hr) as [Hid Hin]. by rewrite <- Hid. }
  apply rate_Ok in Hrate as [Hz Hnz].
  repeat split; try done.
  destruct (reach_u k) as [|n] eqn:En.
  - exists (Q2Qc 0). rewrite Hz by done. repeat split; done.
  - eexists. rewrite Hnz by done. split; [reflexivity|].
    apply percent_bounds; lia.
Qed.

(** ** No division by zero *)

Lemma no_zero_div_bind {A B} (m : result A) (k : A → result B) :
  no_zero_div m → (∀ a, no_zero_div (k a)) → no_zero_div (m ≫= k).
Proof.
  destruct m as [a|e]; cbn; [auto|]. intros H _ e' [= <-]. by apply H.
Qed.

Lemma no_zero_div_Ok {A} (a : A) : no_zero_div (Ok a).
Proof. done. Qed.

Lemma no_zero_div_column (c : pystr) (df : frame) : no_zero_div (column c df).
Proof. unfold column. case_decide; by intros e [= <-]. Qed.

Lemma no_zero_div_set_column (c : pystr) (v : list cell) (df : frame) :
  no_zero_div (set_column c v df).
Proof. unfold set_column. case_decide; by intros e [= <-]. Qed.

Lemma no_zero_div_str_contains (pat : pystr) (col : list cell) :
  no_zero_div (str_contains pat col).
Proof.
  unfold str_contains.
  destruct (simple_pattern pat); [done|]. destruct (re_error_lib pat); [|done].
  by intros e [= <-].
Qed.

Lemma no_zero_div_project (cs : list pystr) (df : frame) :
  no_zero_div (project cs df).
Proof. unfold project. destruct (filter _ cs); by intros e [= <-]. Qed.

Lemma no_zero_div_merge (l r : frame) (key : pystr) :
  no_zero_div (merge_inner l r key).
Proof. unfold merge_inner. repeat case_decide; by intros e [= <-]. Qed.

Lemma no_zero_div_traverse {A B} (f : A → result B) (l : list A) :
  (∀ a, no_zero_div (f a)) → no_zero_div (traverse f l).
Proof.
  intros Hf. induction l as [|a l IH]; [done|]. cbn [traverse].
  apply no_zero_div_bind; [done|]. intros b.
  apply no_zero_div_bind; [done|]. done.
Qed.

Lemma no_zero_div_col_sum (n : nat) (col : list cell) : no_zero_div (col_sum n col).
Proof.
  unfold col_sum. apply no_zero_div_bind; [|done].
  apply no_zero_div_traverse. intros []; by intros e [= <-].
Qed.

Lemma no_zero_div_truediv (x : pynum) (n : nat) : no_zero_div (truediv x (S n)).
Proof. done. Qed.

Ltac no_zero_div :=
  repeat first
    [ apply no_zero_div_column | apply no_zero_div_set_column
    | apply no_zero_div_str_contains | apply no_zero_div_project
    | apply no_zero_div_merge | apply no_zero_div_col_sum
    | apply no_zero_div_truediv | apply no_zero_div_Ok
    | apply no_zero_div_traverse; intros ?
    | apply no_zero_div_bind; [|intros ?]
    | progress cbv zeta
    | match goal with
      | |- no_zero_div (match ?n with O => _ | S _ => _ end) => destruct n
      | |- no_zero_div (match ?o with Some _ => _ | None => _ end) => destruct o
      | |- no_zero_div (match ?l with [] => _ | _ :: _ => _ end) => destruct l
      end ].

Lemma no_zero_div_fun (B R : frame) (s e : option Z) (f : option pystr) :
  no_zero_div (compute_kpis_fun B R s e f).
Proof.
  unfold compute_kpis_fun, with_phone, item_stage, parse_stage, bound_stage,
    aggregate, groupby_nunique, by_day_of.
  no_zero_div.
Qed.


Lemma ratio_Ok (x : pynum) (n : nat) (y : pynum) :
  match n with
  | O => Ok (Num (Q2Qc 0))
  | S _ => truediv x n
  end = Ok y →
  (n = 0%nat → y = Num (Q2Qc 0)) ∧ (n ≠ 0%nat → y = quotient x n).
Proof. destruct n; cbn; intros [= <-]; split; intros; done. Qed.

(** C8.  No call fails on a zero denominator.  AOV is
    total_revenue / total_orders and 0 when there is no order; the repeat
    buyer rate is repeat_count / conv_u * 100 and 0 when conv_u is 0; the
    conversion rate is conv_u / reach_u * 100 and 0 when reach_u is 0. *)
Theorem zero_denominators (B R : frame) (s e : option Z) (f : option pystr) :
  call_compute_kpis B R s e f ≠ Raise ZeroDivisionError ∧
  ∀ k conv bd, call_compute_kpis B R s e f = Ok (k, conv, bd) →
    (total_orders k = 0%nat → aov k = Num (Q2Qc 0)) ∧
    (total_orders k ≠ 0%nat → aov k = quotient (total_revenue k) (total_orders k)) ∧
    (conv_u k = 0%nat → repeat_rate k = Num (Q2Qc 0)) ∧
    (conv_u k ≠ 0%nat →
       repeat_rate k = times (quotient (Num (Qc_of_nat (repeat_count k))) (conv_u k)) 100) ∧
    (reach_u k = 0%nat → conv_rate k = Num (Q2Qc 0)) ∧
    (reach_u k ≠ 0%nat →
       conv_rate k = times (quotient (Num (Qc_of_nat (conv_u k))) (reach_u k)) 100).
Proof.
  split.
  - rewrite call_compute_kpis_fun. intros H.
    by apply (no_zero_div_fun B R s e f ZeroDivisionError).
  - intros k conv bd H. apply call_aggregate in H as (b5 & r1 & H).
    apply aggregate_Ok in H
      as (? & ? & ? & ? & _ & _ & _ & _ & _ & _ & _ & _ & Hrate & _ & _ & _
          & Haov & _ & Hrep).
    apply ratio_Ok in Haov as [? ?]. apply rate_Ok in Hrep as [? ?].
    apply rate_Ok in Hrate as [? ?]. repeat split; done.
Qed.

(** ** Rows without a date *)

Lemma rows_on_day_time (df : frame) (d : Z) (r : gmap pystr cell) :
  r ∈ rows_on_day df d ↔
  r ∈ rows df ∧ ∃ t, cell_at (py "created_at") r = VTime t ∧ d = t `div` ns_per_day.
Proof.
  unfold rows_on_day. rewrite list_elem_of_filter. split.
  - intros [Hd Hr]. split; [done|].
    destruct (cell_at _ r) eqn:E; try done. cbn in Hd. exists t. split; congruence.
  - intros [Hr (t & Ht & ->)]. split; [|done]. by rewrite Ht.
Qed.

(** C6.  A created_at that does not parse becomes NaT.  With a start or an
    end bound no row of the filtered buyers has a NaT date; without bounds
    the filtered buyers are all the rows that passed the item filter, NaT
    dates included.  The converted records are rows of the filtered
    buyers, and every group of the daily breakdown is made of rows whose
    date is a timestamp. *)
Theorem unparseable_created_at (B R : frame) (s e : option Z) (f : option pystr)
    (k : kpis) (conv : frame) (bd : list daily) :
  call_compute_kpis B R s e f = Ok (k, conv, bd) →
  ∃ b2 b5,
    item_filtered B f = Ok b2 ∧ filtered_buyers B s e f = Ok b5 ∧
    let col := map (cell_at (py "created_at")) (rows b2) in
    (∀ r, to_datetime_lib col (cell_at (py "created_at") r) = None →
          cell_at (py "created_at") (parse_row col r) = VNaT) ∧
    rows b5 = filter (λ r, in_window s e r = true) (map (parse_row col) (rows b2)) ∧
    (is_Some s ∨ is_Some e →
       ∀ r, r ∈ rows b5 → ∃ t, cell_at (py "created_at") r = VTime t) ∧
    (s = None → e = None → rows b5 = map (parse_row col) (rows b2)) ∧
    (∀ r, r ∈ rows conv → r ∈ rows b5) ∧
    (∀ r, r ∈ rows b5 → cell_at (py "_phone") r ∈ map identity_of (rows R) →
          r ∈ rows conv) ∧
    Forall (λ g,
      (∀ r, r ∈ rows_on_day conv (day g) →
            ∃ t, cell_at (py "created_at") r = VTime t) ∧
      orders g = nunique (map (cell_at (py "order_id")) (rows_on_day conv (day g))) ∧
      buyers g = nunique (map (cell_at (py "_phone")) (rows_on_day conv (day g))) ∧
      col_sum 0 (map (cell_at (py "total_spent")) (rows_on_day conv (day g)))
        = Ok (revenue g)) bd.
Proof.
  intros H. pose proof H as Hconv.
  apply call_conv in Hconv as (b5 & H5 & _ & Hrows).
  pose proof H5 as H2. apply filtered_buyers_Ok in H2 as (b2 & H2 & Hb5).
  exists b2, b5. split; [done|]. split; [done|]. cbv zeta.
  split; [|split; [done|split; [|split; [|split; [|split]]]]].
  - intros r Hr. unfold parse_row. by rewrite cell_at_insert, Hr.
  - intros Hbound r Hr. rewrite Hb5 in Hr.
    apply list_elem_of_filter in Hr as [Hw _]. unfold in_window in Hw.
    apply andb_true_iff in Hw as [Hs He].
    destruct (cell_at (py "created_at") r) eqn:E; eauto;
      destruct Hbound as [[t ->]|[t ->]]; done.
  - intros -> ->. rewrite Hb5. by apply filter_all.
  - intros r Hr. rewrite Hrows in Hr. by apply list_elem_of_filter in Hr as [_ ?].
  - intros r Hr Hin. rewrite Hrows. by apply list_elem_of_filter.
  - apply call_aggregate in H as (? & ? & H).
    apply aggregate_Ok in H as (? & ? & ? & ? & _ & _ & Hbd & _).
    apply by_day_of_Ok in Hbd as (_ & _ & Hbd).
    eapply Forall_impl; [|exact Hbd]. intros g Hg. split; [|done].
    intros r Hr. apply rows_on_day_time in Hr as (_ & t & Ht & _). eauto.
Qed.

(** C7.  The daily breakdown has one row per calendar date of the parsed
    created_at of the converted records, in ascending order of the date.
    The row of a date holds the distinct order_id count, the distinct
    count of the normalized identity (" _phone".strip() is the "_phone"
    column) and the sum of total_spent of the records of that date. *)
Theorem daily_breakdown (B R : frame) (s e : option Z) (f : option pystr)
    (k : kpis) (conv : frame) (bd : list daily) :
  call_compute_kpis B R s e f = Ok (k, conv, bd) →
  strip (py " _phone") = py "_phone" ∧
  StronglySorted Z.lt (map day bd) ∧
  (∀ d, d ∈ map day bd ↔
        ∃ r t, r ∈ rows conv ∧ cell_at (py "created_at") r = VTime t ∧
               d = t `div` ns_per_day) ∧
  Forall (λ g,
    orders g = nunique (map (cell_at (py "order_id")) (rows_on_day conv (day g))) ∧
    buyers g = nunique (map identity_of (rows_on_day conv (day g))) ∧
    col_sum 0 (map (cell_at (py "total_spent")) (rows_on_day conv (day g)))
      = Ok (revenue g)) bd.
Proof.
  intros H. pose proof (conv_phones_reached _ _ _ _ _ _ _ _ H) as Hreached.
  apply call_aggregate in H as (? & ? & H).
  apply aggregate_Ok in H as (? & ? & ? & ? & _ & _ & Hbd & _).
  apply by_day_of_Ok in Hbd as (Hsorted & Hdays & Hbd).
  split; [apply strip_phone|]. split; [done|]. split.
  - intros d. rewrite Hdays. split.
    + intros Hne. destruct (rows_on_day conv d) as [|r rs] eqn:E; [done|].
      assert (r ∈ rows_on_day conv d) as Hr by (rewrite E; apply list_elem_of_here).
      apply rows_on_day_time in Hr as (Hr & t & Ht & Hd). eauto.
    + intros (r & t & Hr & Ht & Hd) Hnil.
      assert (r ∈ rows_on_day conv d) as Hin by (apply rows_on_day_time; eauto).
      rewrite Hnil in Hin. inversion Hin.
  - eapply Forall_impl; [|exact Hbd]. intros g (Ho & Hb & Hrev).
    split; [done|]. split; [|done]. rewrite Hb. f_equal.
    apply map_ext_in. intros r Hr. apply list_elem_of_In in Hr.
    apply rows_on_day_time in Hr as (Hr & _). by destruct (Hreached r Hr).
Qed.

(** ** Sums over an empty or all-null column *)

Lemma traverse_num_of_na (col : list cell) :
  Forall (λ c, isna c = true) col →
  traverse num_of col = Ok (map (λ _, None) col).
Proof.
  induction 1 as [|c col Hc _ IH]; [done|]. cbn [traverse map].
  rewrite IH. by destruct c.
Qed.

Lemma col_sum_na (col : list cell) :
  Forall (λ c, isna c = true) col → col_sum 1 col = Ok NaN.
Proof.
  intros H. unfold col_sum. rewrite (traverse_num_of_na _ H). cbn.
  assert (omap id (map (λ _ : cell, @None Qc) col) = []) as ->; [|done].
  clear H. induction col as [|c col IH]; [done|]. exact IH.
Qed.

(** X14.  When the converted set is empty or every total_spent (quantity)
    of it is null, Total revenue (Total units) is NaN and not 0:
    [sum(min_count=1)] is NaN, NaN is true in Python, and [or 0] leaves
    it. *)
Lemma totals_nan (B R : frame) (s e : option Z) (f : option pystr)
    (k : kpis) (conv : frame) (bd : list daily) :
  call_compute_kpis B R s e f = Ok (k, conv, bd) →
  (Forall (λ r, isna (cell_at (py "total_spent") r) = true) (rows conv) →
   total_revenue k = NaN) ∧
  (Forall (λ r, isna (cell_at (py "quantity") r) = true) (rows conv) →
   total_units k = NaN).
Proof.
  intros H. apply call_aggregate in H as (? & ? & H).
  apply aggregate_Ok in H
    as (? & rs & us & ? & _ & _ & _ & Hrs & Hus & _ & _ & _ & _ & Hrev & _ & Hun & _).
  split; intros Hna.
  - rewrite col_sum_na in Hrs by (by apply Forall_fmap). injection Hrs as <-.
    by rewrite Hrev.
  - rewrite col_sum_na in Hus by (by apply Forall_fmap). injection Hus as <-.
    by rewrite Hun.
Qed.


(** ** The call returns *)

Ltac in_list :=
  repeat first [ apply list_elem_of_here | apply list_elem_of_further ].

Lemma ok_bind {A B} (a : A) (k : A → result B) : Ok a ≫= k = k a.
Proof. reflexivity. Qed.

Lemma column_returns (c : pystr) (df : frame) :
  c ∈ columns df → column c df = Ok (map (cell_at c) (rows df)).
Proof. intros H. unfold column. by rewrite decide_True. Qed.

Lemma set_column_returns (c : pystr) (g : gmap pystr cell → cell) (df : frame) :
  ∃ df', set_column c (map g (rows df)) df = Ok df'.
Proof.
  unfold set_column. rewrite decide_True by apply length_map. eauto.
Qed.

Lemma traverse_returns {A B} (f : A → result B) (l : list A) :
  (∀ a, a ∈ l → ∃ b, f a = Ok b) → ∃ bs, traverse f l = Ok bs.
Proof.
  induction l as [|a l IH]; intros H; [by eexists|].
  destruct (H a) as [b Hb]; [apply list_elem_of_here|].
  destruct IH as [bs Hbs]; [intros; apply H; by apply list_elem_of_further|].
  exists (b :: bs). cbn [traverse]. by rewrite Hb, ok_bind, Hbs.
Qed.

Lemma col_sum_returns (n : nat) (col : list cell) :
  (∀ c, c ∈ col → numeric c = true) → ∃ x, col_sum n col = Ok x.
Proof.
  intros H. unfold col_sum.
  destruct (traverse_returns num_of col) as [vals Hv].
  { intros c Hc. specialize (H c Hc). destruct c; try done; by eexists. }
  rewrite Hv. by eexists.
Qed.

Lemma with_phone_returns (df : frame) :
  py "phone_number" ∈ columns df → ∃ df', with_phone df = Ok df'.
Proof.
  intros H. unfold with_phone. rewrite (column_returns _ _ H), ok_bind.
  rewrite map_map. apply set_column_returns.
Qed.

Lemma item_stage_returns (f : option pystr) (df : frame) :
  filter_ok f → py "item_name" ∈ columns df → ∃ df', item_stage f df = Ok df'.
Proof.
  intros Hf H. unfold item_stage. destruct f as [[|ch pat]|]; try by eexists.
  rewrite (column_returns _ _ H), ok_bind. unfold str_contains.
  destruct Hf as [-> | Hf]; [by eexists|].
  rewrite Hf. destruct (simple_pattern _); by eexists.
Qed.

Lemma parse_stage_returns (df : frame) :
  py "created_at" ∈ columns df → ∃ df', parse_stage df = Ok df'.
Proof.
  intros H. unfold parse_stage. rewrite (column_returns _ _ H), ok_bind.
  unfold to_datetime. rewrite map_map. apply set_column_returns.
Qed.

Lemma bound_stage_returns (cmp : Z → cell → bool) (bound : option Z) (df : frame) :
  py "created_at" ∈ columns df → ∃ df', bound_stage cmp bound df = Ok df'.
Proof.
  intros H. unfold bound_stage. destruct bound; [|by eexists].
  rewrite (column_returns _ _ H). by eexists.
Qed.

Lemma by_day_of_returns (conv : frame) :
  (∀ c, c ∈ map py ["created_at"; "order_id"; "_phone"; "total_spent"]%string →
        c ∈ columns conv) →
  (∀ r, r ∈ rows conv → numeric (cell_at (py "total_spent") r) = true) →
  ∃ bd, by_day_of conv = Ok bd.
Proof.
  intros Hc Hnum. unfold by_day_of. rewrite strip_phone.
  rewrite column_returns by (apply Hc; in_list). rewrite ok_bind, map_map.
  destruct (set_column_returns (py "day")
              (λ r, dt_date (cell_at (py "created_at") r)) conv) as [df Hdf].
  rewrite Hdf, ok_bind. apply set_column_Ok in Hdf as (Hrows & Hday & Hcols).
  rewrite !column_returns by (done || apply Hcols, Hc; in_list).
  rewrite !ok_bind.
  apply traverse_returns. intros d _.
  destruct (col_sum_returns 0 (map (cell_at (py "total_spent"))
              (filter (λ r, cell_at (py "day") r = VDate d) (rows df)))) as [x Hx].
  { intros c (r & -> & Hr)%list_elem_of_fmap.
    apply list_elem_of_filter in Hr as [_ Hr]. rewrite Hrows in Hr.
    apply list_elem_of_fmap in Hr as (r0 & -> & Hr0).
    rewrite cell_at_insert_ne by py_ne. by apply Hnum. }
  rewrite Hx, ok_bind. by eexists.
Qed.


Lemma aggregate_returns (n : nat) (b R r1 : frame) :
  with_phone R = Ok r1 →
  (∀ c, c ∈ map py ["created_at"; "order_id"; "_phone"; "total_spent";
                    "quantity"]%string → c ∈ columns b) →
  (∀ l, l ∈ rows b → is_Some (l !! py "_phone")) →
  (∀ r, r ∈ rows b → numeric (cell_at (py "total_spent") r) = true ∧
                     numeric (cell_at (py "quantity") r) = true) →
  ∃ x, aggregate n b r1 = Ok x.
Proof.
  intros H1 Hc Hkey Hnum. unfold aggregate.
  destruct (project [py "_phone"] r1) as [keys|] eqn:Hk.
  2:{ apply with_phone_Ok in H1 as (_ & Hp & _). unfold project in Hk.
      rewrite filter_cons_False in Hk by (intros ?; done). done. }
  rewrite ok_bind.
  destruct (merge_inner b (drop_duplicates keys) (py "_phone")) as [conv|] eqn:Hm.
  2:{ destruct (project_phone_Ok _ _ _ H1 Hk) as [Hkc _]. unfold merge_inner in Hm.
      rewrite decide_True in Hm by (apply Hc; in_list).
      rewrite decide_True in Hm by (cbn [columns drop_duplicates]; rewrite Hkc; in_list).
      done. }
  rewrite ok_bind.
  destruct (merge_reach_Ok _ _ _ _ _ H1 Hk Hkey Hm) as [Hcols Hrows].
  assert (∀ r, r ∈ rows conv → r ∈ rows b) as Hsub.
  { intros r. rewrite Hrows, list_elem_of_filter. tauto. }
  unfold groupby_nunique.
  rewrite !column_returns by (rewrite Hcols; apply Hc; in_list).
  rewrite ok_bind. cbv zeta.
  assert (∀ a m x, ∃ y,
    match m with
    | O => Ok (Num (Q2Qc 0))
    | S _ => q ← truediv (Num (Qc_of_nat a)) m; Ok (times q x)
    end = Ok y) as Hrate by (intros a [|m] x; by eexists).
  destruct (Hrate (nunique (map (cell_at (py "_phone")) (rows conv))) n 100)
    as [y1 ->]. rewrite !ok_bind.
  destruct (col_sum_returns 1 (map (cell_at (py "total_spent")) (rows conv)))
    as [rs ->].
  { intros c (r & -> & Hr)%list_elem_of_fmap. by apply Hnum, Hsub. }
  rewrite !ok_bind.
  destruct (col_sum_returns 1 (map (cell_at (py "quantity")) (rows conv)))
    as [us ->].
  { intros c (r & -> & Hr)%list_elem_of_fmap. by apply Hnum, Hsub. }
  rewrite ok_bind.
  assert (∃ y, match nunique (map (cell_at (py "order_id")) (rows conv)) with
               | O => Ok (Num (Q2Qc 0))
               | S _ => truediv (py_or rs (Num (Q2Qc 0)))
                          (nunique (map (cell_at (py "order_id")) (rows conv)))
               end = Ok y) as [y2 ->] by (destruct (nunique _); by eexists).
  rewrite !ok_bind.
  match goal with
  | |- context [match ?m with O => _ | S _ => truediv (Num (Qc_of_nat ?a)) _ ≫= _ end] =>
      destruct (Hrate a m 100) as [y3 ->]
  end.
  rewrite ok_bind.
  destruct (by_day_of_returns conv) as [bd ->].
  - intros c Hin. rewrite Hcols. apply Hc. cbn [map] in *.
    repeat (apply elem_of_cons in Hin as [->|Hin]); [in_list..|inversion Hin].
  - intros r Hr. by apply Hnum, Hsub.
  - rewrite ok_bind. by eexists.
Qed.

(** On a buyers table with the six columns and numeric amounts, a reach
    table with a phone_number column and a filter string that compiles,
    the call returns. *)
Lemma compute_kpis_returns (B R : frame) (s e : option Z) (f : option pystr) :
  buyers_ok B → py "phone_number" ∈ columns R → filter_ok f →
  ∃ k conv bd, call_compute_kpis B R s e f = Ok (k, conv, bd).
Proof.
  intros [HBc HBn] HR Hf. rewrite call_compute_kpis_fun. unfold compute_kpis_fun.
  destruct (with_phone_returns B) as [b1 H1]; [apply HBc; in_list|].
  destruct (with_phone_returns R) as [r1 Hr1]; [done|].
  pose proof (with_phone_Ok _ _ H1) as (Hrows1 & Hp1 & Hc1).
  destruct (item_stage_returns f b1 Hf) as [b2 H2]; [apply Hc1, HBc; in_list|].
  pose proof (item_stage_Ok _ _ _ H2) as (Hc2 & p & Hrows2).
  destruct (parse_stage_returns b2) as [b3 H3];
    [rewrite Hc2; apply Hc1, HBc; in_list|].
  pose proof (parse_stage_Ok _ _ H3) as (Hrows3 & Hc3).
  assert (py "created_at" ∈ columns b3) as Hca
    by (apply Hc3; rewrite Hc2; apply Hc1, HBc; in_list).
  destruct (bound_stage_returns ge_ts s b3 Hca) as [b4 H4].
  pose proof (bound_stage_Ok _ _ _ _ H4) as (Hc4 & Hrows4).
  destruct (bound_stage_returns le_ts e b4) as [b5 H5]; [by rewrite Hc4|].
  pose proof (bound_stage_Ok _ _ _ _ H5) as (Hc5 & Hrows5).
  rewrite H1, ok_bind, Hr1, ok_bind, H2, ok_bind, H3, ok_bind, H4, ok_bind,
    H5, ok_bind.
  assert (∀ c, c ∈ columns B ∨ c = py "_phone" → c ∈ columns b5) as Hcols.
  { intros c Hc. rewrite Hc5, Hc4. apply Hc3. rewrite Hc2.
    destruct Hc as [Hc| ->]; auto. }
  assert (∀ r, r ∈ rows b5 →
            ∃ r0 col, r0 ∈ rows B ∧ r = parse_row col (add_phone r0)) as Hfrom.
  { intros r. rewrite Hrows5, Hrows4, Hrows3, Hrows2, Hrows1.
    rewrite !list_elem_of_filter. intros (_ & _ & Hr).
    apply list_elem_of_fmap in Hr as (r1' & -> & Hr).
    apply list_elem_of_filter in Hr as [_ Hr].
    apply list_elem_of_fmap in Hr as (r0 & -> & Hr). eauto. }
  pose proof (with_phone_Ok _ _ Hr1) as (_ & Hrp & _).
  rewrite (column_returns _ r1 Hrp), ok_bind.
  rewrite (column_returns (py "_phone") b5), ok_bind by (apply Hcols; by right).
  destruct (aggregate_returns (nunique (map (cell_at (py "_phone")) (rows r1)))
              b5 R r1 Hr1) as [[[k conv] bd] Hagg].
  - intros c Hc. apply Hcols.
    cbn [map] in Hc.
    repeat (apply elem_of_cons in Hc as [->|Hc]);
      [left; apply HBc; in_list | left; apply HBc; in_list | by right
      | left; apply HBc; in_list | left; apply HBc; in_list | inversion Hc].
  - intros l Hl. destruct (Hfrom l Hl) as (r0 & col & _ & ->).
    unfold parse_row, add_phone. rewrite lookup_insert_ne by py_ne.
    rewrite lookup_insert_eq. by eexists.
  - intros r Hr. destruct (Hfrom r Hr) as (r0 & col & Hr0 & ->).
    unfold parse_row, add_phone. rewrite !cell_at_insert_ne by py_ne.
    by apply HBn.
  - eauto.
Qed.


Lemma sample_buyers_ok : buyers_ok sample_buyers.
Proof.
  split; [done|]. intros r Hr. cbn [rows sample_buyers] in Hr.
  repeat (apply elem_of_cons in Hr as [->|Hr]); [by vm_compute..|inversion Hr].
Qed.

(** ** Sums over a column with a value *)

Lemma py_or_zero (q : Qc) : py_or (Num q) (Num (Q2Qc 0)) = Num q.
Proof.
  unfold py_or, truthy. destruct (bool_decide (q = Q2Qc 0)) eqn:E; [|done].
  apply bool_decide_eq_true in E. by subst.
Qed.

Lemma col_sum_present (col : list cell) (x : pynum) :
  col_sum 1 col = Ok x → (∃ c, c ∈ col ∧ isna c = false) →
  ∃ vals, traverse num_of col = Ok vals ∧
          x = Num (foldr Qcplus (Q2Qc 0) (omap id vals)).
Proof.
  unfold col_sum. intros H (c & Hc & Hna). inv_ok H. injection H as <-.
  exists x0. split; [done|].
  assert (omap id x0 ≠ []) as Hne.
  { apply traverse_Ok in H0. clear -H0 Hc Hna.
    induction H0 as [|a o col vals Ha _ IH]; [inversion Hc|].
    apply elem_of_cons in Hc as [<-|Hc].
    - destruct c; try done; injection Ha as <-; done.
    - destruct o; [done|]. by apply IH. }
  destruct (omap id x0); done.
Qed.

(** Where the code and C2 agree: when a converted record has an amount
    (a quantity), Total revenue (Total units) is the sum of the amounts
    (quantities) that are present. *)
Lemma totals_sum (B R : frame) (s e : option Z) (f : option pystr)
    (k : kpis) (conv : frame) (bd : list daily) :
  call_compute_kpis B R s e f = Ok (k, conv, bd) →
  ((∃ r, r ∈ rows conv ∧ isna (cell_at (py "total_spent") r) = false) →
   ∃ vals, traverse num_of (map (cell_at (py "total_spent")) (rows conv)) = Ok vals ∧
           total_revenue k = Num (foldr Qcplus (Q2Qc 0) (omap id vals))) ∧
  ((∃ r, r ∈ rows conv ∧ isna (cell_at (py "quantity") r) = false) →
   ∃ vals, traverse num_of (map (cell_at (py "quantity")) (rows conv)) = Ok vals ∧
           total_units k = Num (foldr Qcplus (Q2Qc 0) (omap id vals))).
Proof.
  intros H. apply call_aggregate in H as (? & ? & H).
  apply aggregate_Ok in H
    as (? & rs & us & ? & _ & _ & _ & Hrs & Hus & _ & _ & _ & _ & Hrev & _ & Hun & _).
  split; intros (r & Hr & Hna).
  - destruct (col_sum_present _ _ Hrs) as (vals & Hv & ->).
    { eexists. split; [by apply list_elem_of_fmap_2|done]. }
    exists vals. split; [done|]. by rewrite Hrev, py_or_zero.
  - destruct (col_sum_present _ _ Hus) as (vals & Hv & ->).
    { eexists. split; [by apply list_elem_of_fmap_2|done]. }
    exists vals. split; [done|]. by rewrite Hun, py_or_zero.
Qed.

(** X15.  A cell that is not a string never passes the item filter:
    whatever the filter string, the mask is False at a missing item_name
    and at a number. *)
Lemma missing_item_never_matches (pat : pystr) (col : list cell) (mask : list bool) :
  str_contains pat col = Ok mask →
  Forall2 (λ c b, (∀ s, c ≠ VStr s) → b = false) col mask.
Proof.
  unfold str_contains.
  destruct (simple_pattern pat); [|destruct (re_error_lib pat); [done|]];
    intros [= <-]; apply Forall2_fmap_r, Forall_Forall2_diag, Forall_forall;
    intros c _ Hc; destruct c; try done; by destruct (Hc s).
Qed.


(** ** The item filter on plain strings *)






(** ** More on norm_phone *)

Lemma join_digits_Forall (s : pystr) :
  Forall (λ ch, isdigit ch = true) (join_digits s).
Proof.
  induction s as [|ch s IH]; [constructor|]. cbn [join_digits].
  destruct (isdigit ch) eqn:E; [by constructor|done].
Qed.

Lemma join_digits_app (s t : pystr) :
  join_digits (s ++ t) = join_digits s ++ join_digits t.
Proof.
  induction s as [|ch s IH]; [done|]. cbn [app join_digits].
  destruct (isdigit ch); [|done]. cbn [app]. by f_equal.
Qed.

(** X1.  The identity that norm_phone returns is made of digits only. *)
Theorem norm_phone_digits (x : cell) :
  Forall (λ ch, isdigit ch = true) (norm_phone x).
Proof.
  unfold norm_phone. pose proof (join_digits_Forall (str x)) as H.
  destruct (startswith _ _); [done|].
  destruct (_ =? _)%nat; [|done].
  apply Forall_app. split; [|done]. by repeat constructor.
Qed.

(** X2.  norm_phone never returns a bare local number: its result begins
    with "974" or does not have 8 characters; and it is the digits of the
    argument, or these digits after "974". *)
Theorem norm_phone_shape (x : cell) :
  (py "974" `prefix_of` norm_phone x ∨ length (norm_phone x) ≠ 8%nat) ∧
  (norm_phone x = join_digits (str x) ∨
   norm_phone x = py "974" ++ join_digits (str x)).
Proof.
  unfold norm_phone. destruct (startswith _ _) eqn:E.
  - apply startswith_prefix in E. auto.
  - destruct (_ =? 8)%nat eqn:E8.
    + split; [left|by right]. by apply prefix_app_r.
    + apply Nat.eqb_neq in E8. auto.
Qed.

(** X3.  Characters that are not digits (spaces, dashes, a plus sign) do
    not change the identity, wherever they stand. *)
Theorem norm_phone_separators (s1 sep s2 : pystr) :
  Forall (λ ch, isdigit ch = false) sep →
  norm_phone (VStr (s1 ++ sep ++ s2)) = norm_phone (VStr (s1 ++ s2)).
Proof.
  intros Hsep. unfold norm_phone. cbn [str].
  rewrite !join_digits_app.
  rewrite (join_digits_none sep); [done|].
  intros ch Hch. rewrite Forall_forall in Hsep. apply Hsep.
  by apply list_elem_of_In.
Qed.

(** X4.  A number written with the country code and the same number
    written as its 8 local digits have the same identity: if the digits
    of x are "974" followed by the digits of y, and y has 8 digits that do
    not begin with "974", then norm_phone(x) = norm_phone(y). *)
Theorem norm_phone_country_code (x y : cell) :
  join_digits (str x) = py "974" ++ join_digits (str y) →
  length (join_digits (str y)) = 8%nat →
  ¬ py "974" `prefix_of` join_digits (str y) →
  norm_phone x = norm_phone y.
Proof.
  intros Hx Hy Hp. unfold norm_phone. rewrite Hx, startswith_prefixed.
  destruct (startswith (join_digits (str y)) _) eqn:E.
  - by apply startswith_prefix in E.
  - by rewrite Hy.
Qed.

(** ** More on the converted records *)

Lemma filter_ext_in {A} (P Q : A → Prop) `{∀ x, Decision (P x)} `{∀ x, Decision (Q x)}
    (l : list A) :
  (∀ x, x ∈ l → (P x ↔ Q x)) → filter P l = filter Q l.
Proof.
  induction l as [|x l IH]; intros HPQ; [done|].
  assert (filter P l = filter Q l) as IH'
    by (apply IH; intros; apply HPQ; by apply list_elem_of_further).
  destruct (decide (P x)) as [HP|HP].
  - rewrite !filter_cons_True by (done || by apply HPQ; [apply list_elem_of_here|]).
    by f_equal.
  - rewrite !filter_cons_False; [done| |done].
    intros HQ. apply HP, HPQ; [apply list_elem_of_here|done].
Qed.

Lemma filter_filter_comm {A} (P Q : A → Prop) `{∀ x, Decision (P x)}
    `{∀ x, Decision (Q x)} (l : list A) :
  filter P (filter Q l) = filter Q (filter P l).
Proof. rewrite !list_filter_filter. apply list_filter_iff. tauto. Qed.

Lemma nunique_length (col : list cell) : (nunique col ≤ length col)%nat.
Proof.
  unfold nunique. apply submseteq_length, NoDup_submseteq.
  - apply NoDup_remove_dups.
  - intros x. rewrite elem_of_remove_dups, list_elem_of_filter. tauto.
Qed.

Lemma filtered_buyers_length (B b5 : frame) (s e : option Z) (f : option pystr) :
  filtered_buyers B s e f = Ok b5 → (length (rows b5) ≤ length (rows B))%nat.
Proof.
  intros H. apply filtered_buyers_Ok in H as (b2 & H2 & ->).
  apply item_filtered_Ok in H2 as (_ & p & Hp).
  etrans; [apply length_filter|]. rewrite length_map, Hp.
  etrans; [apply length_filter|]. by rewrite length_map.
Qed.

(** The rows of the filtered buyers come from rows of the buyers table:
    the identity and the parsed date are added, the rest is as it was. *)
Lemma filtered_buyers_from (B b5 : frame) (s e : option Z) (f : option pystr) :
  filtered_buyers B s e f = Ok b5 →
  ∀ r, r ∈ rows b5 → ∃ r0 col, r0 ∈ rows B ∧ r = parse_row col (add_phone r0).
Proof.
  intros H r Hr. apply filtered_buyers_Ok in H as (b2 & H2 & Hb5).
  apply item_filtered_Ok in H2 as (_ & p & Hp).
  rewrite Hb5 in Hr. apply list_elem_of_filter in Hr as [_ Hr].
  apply list_elem_of_fmap in Hr as (r1 & -> & Hr).
  rewrite Hp in Hr. apply list_elem_of_filter in Hr as [_ Hr].
  apply list_elem_of_fmap in Hr as (r0 & -> & Hr). eauto.
Qed.

Lemma filtered_buyers_columns (B b5 : frame) (s e : option Z) (f : option pystr) :
  filtered_buyers B s e f = Ok b5 →
  py "_phone" ∈ columns b5 ∧ py "created_at" ∈ columns b5 ∧
  ∀ c, c ∈ columns B → c ∈ columns b5.
Proof.
  unfold filtered_buyers. intros H.
  apply bind_Ok in H as (b2 & H2 & H). apply bind_Ok in H as (b3 & Hparse & H).
  apply bind_Ok in H as (b4 & H4 & H).
  unfold item_filtered in H2. apply bind_Ok in H2 as (b1 & H1 & H2).
  apply with_phone_Ok in H1 as (_ & Hp1 & Hc1).
  apply item_stage_Ok in H2 as (Hc2 & _).
  pose proof (parse_stage_Ok _ _ Hparse) as (_ & Hc3).
  apply bound_stage_Ok in H4 as (Hc4 & _).
  apply bound_stage_Ok in H as (Hc5 & _).
  rewrite Hc5, Hc4. split; [|split].
  - apply Hc3. by rewrite Hc2.
  - unfold parse_stage in Hparse. apply bind_Ok in Hparse as (col & Hcol & Hparse).
    apply column_Ok in Hcol as [_ ->]. unfold to_datetime in Hparse.
    rewrite map_map in Hparse. by apply set_column_Ok in Hparse as (_ & ? & _).
  - intros c Hc. apply Hc3. rewrite Hc2. by apply Hc1.
Qed.

(** X5.  The merge is a plain selection: the converted records are the
    rows of the filtered buyers whose identity is an identity of the reach
    table, in the order of the buyers and each one once, however often the
    identity occurs in the reach table.  So there are at most as many
    converted records as buyer rows, and neither the distinct identities
    nor the distinct orders outnumber the converted records. *)
Theorem converted_records_selected (B R : frame) (s e : option Z) (f : option pystr)
    (k : kpis) (conv : frame) (bd : list daily) :
  call_compute_kpis B R s e f = Ok (k, conv, bd) →
  ∃ b5, filtered_buyers B s e f = Ok b5 ∧
    rows conv = filter (λ r, identity_of r ∈ map identity_of (rows R)) (rows b5) ∧
    (length (rows conv) ≤ length (rows b5))%nat ∧
    (length (rows b5) ≤ length (rows B))%nat ∧
    (conv_u k ≤ length (rows conv))%nat ∧
    (total_orders k ≤ length (rows conv))%nat.
Proof.
  intros H. pose proof (call_conv _ _ _ _ _ _ _ _ H) as (b5 & H5 & _ & Hrows).
  exists b5. split; [done|].
  assert (rows conv = filter (λ r, identity_of r ∈ map identity_of (rows R)) (rows b5))
    as Hsel.
  { rewrite Hrows. apply filter_ext_in. intros r Hr.
    destruct (filtered_buyers_phone _ _ _ _ _ H5 r Hr) as [Hp _].
    unfold cell_at at 1. by rewrite Hp. }
  split; [done|]. split; [rewrite Hsel; apply length_filter|].
  split; [by eapply filtered_buyers_length|].
  apply call_aggregate in H as (? & ? & H).
  apply aggregate_Ok in H
    as (? & ? & ? & ? & _ & _ & _ & _ & _ & _ & _ & -> & _ & _ & -> & _).
  split; (etrans; [apply nunique_length|]; by rewrite length_map).
Qed.

(** X6.  The date window is inclusive at both ends: with a start bound
    every converted record has a timestamp at or after it, with an end
    bound a timestamp at or before it; and a reached row that passed the
    item filter and whose timestamp lies within the given bounds, the
    bounds themselves included, is a converted record. *)
Theorem date_window_inclusive (B R : frame) (s e : option Z) (f : option pystr)
    (k : kpis) (conv : frame) (bd : list daily) :
  call_compute_kpis B R s e f = Ok (k, conv, bd) →
  (∀ r ts, r ∈ rows conv → s = Some ts →
     ∃ t, cell_at (py "created_at") r = VTime t ∧ ts ≤ t) ∧
  (∀ r te, r ∈ rows conv → e = Some te →
     ∃ t, cell_at (py "created_at") r = VTime t ∧ t ≤ te) ∧
  ∃ b2, item_filtered B f = Ok b2 ∧
    ∀ r0 t, r0 ∈ rows b2 →
      let r := parse_row (map (cell_at (py "created_at")) (rows b2)) r0 in
      cell_at (py "created_at") r = VTime t →
      (∀ ts, s = Some ts → ts ≤ t) → (∀ te, e = Some te → t ≤ te) →
      cell_at (py "_phone") r0 ∈ map identity_of (rows R) →
      r ∈ rows conv.
Proof.
  intros H. apply call_conv in H as (b5 & H5 & _ & Hrows).
  apply filtered_buyers_Ok in H5 as (b2 & H2 & Hb5).
  assert (∀ r, r ∈ rows conv → in_window s e r = true) as Hw.
  { intros r Hr. rewrite Hrows in Hr. apply list_elem_of_filter in Hr as [_ Hr].
    rewrite Hb5 in Hr. by apply list_elem_of_filter in Hr as [? _]. }
  split; [|split].
  - intros r ts Hr ->. specialize (Hw r Hr). unfold in_window in Hw.
    apply andb_true_iff in Hw as [Hs _].
    destruct (cell_at _ r); try done. eexists. split; [done|].
    cbn in Hs. lia.
  - intros r te Hr ->. specialize (Hw r Hr). unfold in_window in Hw.
    apply andb_true_iff in Hw as [_ He].
    destruct (cell_at _ r); try done. eexists. split; [done|].
    cbn in He. lia.
  - exists b2. split; [done|]. intros r0 t Hr0 r Ht Hs He Hid.
    rewrite Hrows. apply list_elem_of_filter. split.
    + unfold r, parse_row. by rewrite cell_at_insert_ne by py_ne.
    + rewrite Hb5. apply list_elem_of_filter. split; [|by apply list_elem_of_fmap_2].
      unfold in_window. fold r. rewrite Ht. apply andb_true_iff. split.
      * destruct s as [ts|]; [|done]. cbn. specialize (Hs ts eq_refl). lia.
      * destruct e as [te|]; [|done]. cbn. specialize (He te eq_refl). lia.
Qed.

(** X7.  Date bounds only remove records: the converted records of a call
    with bounds are a sublist of those of the call without bounds on the
    same tables and item filter, so neither the matched buyers nor the
    orders grow, and the reach count is the same. *)
Theorem date_bounds_only_remove (B R : frame) (s e : option Z) (f : option pystr)
    (k k0 : kpis) (conv conv0 : frame) (bd bd0 : list daily) :
  call_compute_kpis B R s e f = Ok (k, conv, bd) →
  call_compute_kpis B R None None f = Ok (k0, conv0, bd0) →
  rows conv `sublist_of` rows conv0 ∧
  (conv_u k ≤ conv_u k0)%nat ∧
  (total_orders k ≤ total_orders k0)%nat ∧
  reach_u k = reach_u k0.
Proof.
  intros H H0.
  pose proof (call_conv _ _ _ _ _ _ _ _ H) as (b5 & H5 & _ & Hrows).
  pose proof (call_conv _ _ _ _ _ _ _ _ H0) as (b5' & H5' & _ & Hrows').
  apply filtered_buyers_Ok in H5 as (b2 & H2 & Hb5).
  apply filtered_buyers_Ok in H5' as (b2' & H2' & Hb5').
  rewrite H2 in H2'. injection H2' as <-.
  rewrite filter_all in Hb5' by done.
  assert (rows conv `sublist_of` rows conv0) as Hsub.
  { rewrite Hrows, Hrows', Hb5, Hb5', filter_filter_comm. apply sublist_filter. }
  split; [done|].
  apply call_aggregate in H as (? & ? & H). apply call_aggregate in H0 as (? & ? & H0).
  apply aggregate_Ok in H
    as (? & ? & ? & ? & _ & _ & _ & _ & _ & _ & -> & -> & _ & _ & -> & _).
  apply aggregate_Ok in H0
    as (? & ? & ? & ? & _ & _ & _ & _ & _ & _ & -> & -> & _ & _ & -> & _).
  split; [|split; [|done]]; apply nunique_le; intros c Hc _;
    apply list_elem_of_fmap in Hc as (r & -> & Hr); apply list_elem_of_fmap_2;
    by eapply elem_of_sublist.
Qed.

(** ** Repeat buyers *)

(** X8.  The repeat buyers are among the matched buyers: repeat_count is
    at most conv_u, and the repeat buyer rate is a number between 0 and
    100. *)
Theorem repeat_buyers_bounds (B R : frame) (s e : option Z) (f : option pystr)
    (k : kpis) (conv : frame) (bd : list daily) :
  call_compute_kpis B R s e f = Ok (k, conv, bd) →
  (repeat_count k ≤ conv_u k)%nat ∧
  ∃ q, repeat_rate k = Num q ∧ (Q2Qc 0 ≤ q)%Qc ∧ (q ≤ Qc_of_Z 100)%Qc.
Proof.
  intros H. apply call_aggregate in H as (? & ? & H).
  apply aggregate_Ok in H
    as (? & ? & ? & rb & _ & _ & _ & _ & _ & Hrb & _ & Hcu & _ & _ & _ & _ & _
        & Hrc & Hrate).
  assert (repeat_count k ≤ conv_u k)%nat as Hle.
  { rewrite Hrc, Hcu. etrans; [apply length_filter|].
    unfold groupby_nunique in Hrb. inv_ok Hrb. injection Hrb as <-.
    match goal with Hc : column (py "_phone") conv = Ok _ |- _ =>
      apply column_Ok in Hc as [_ ->] end.
    by rewrite length_map. }
  split; [done|]. apply rate_Ok in Hrate as [Hz Hnz].
  destruct (conv_u k) as [|n] eqn:En.
  - exists (Q2Qc 0). by rewrite Hz.
  - eexists. rewrite Hnz by done. split; [reflexivity|].
    apply percent_bounds; lia.
Qed.

(** ** Sums *)







Lemma StronglySorted_lt_NoDup (l : list Z) : StronglySorted Z.lt l → NoDup l.
Proof.
  induction 1 as [|x l _ IH Hx]; constructor; [|done].
  intros Hin. rewrite Forall_forall in Hx. apply list_elem_of_In in Hin.
  specialize (Hx x Hin). lia.
Qed.


(** ** What the converted records hold *)

Lemma converted_records_columns (B R : frame) (s e : option Z)
    (f : option pystr) (k : kpis) (conv : frame) (bd : list daily) :
  call_compute_kpis B R s e f = Ok (k, conv, bd) →
  py "_phone" ∈ columns conv ∧ (∀ c, c ∈ columns B → c ∈ columns conv).
Proof.
  intros H. apply call_conv in H as (b5 & H5 & Hcols & _).
  destruct (filtered_buyers_columns _ _ _ _ _ H5) as (Hp & _ & Hc).
  rewrite Hcols. by split.
Qed.

(** X11.  The table of converted records has every column of the buyers
    table and the "_phone" column, and each of its rows is a row of the
    buyers table with its identity in "_phone": apart from "_phone" and the
    parsed created_at, every cell is the cell of that buyers row. *)
Theorem converted_records_keep_values (B R : frame) (s e : option Z)
    (f : option pystr) (k : kpis) (conv : frame) (bd : list daily) :
  call_compute_kpis B R s e f = Ok (k, conv, bd) →
  py "_phone" ∈ columns conv ∧
  (∀ c, c ∈ columns B → c ∈ columns conv) ∧
  ∀ r, r ∈ rows conv →
    ∃ r0, r0 ∈ rows B ∧ r !! py "_phone" = Some (identity_of r0) ∧
          ∀ c, c ≠ py "_phone" → c ≠ py "created_at" → r !! c = r0 !! c.
Proof.
  intros H. apply call_conv in H as (b5 & H5 & Hcols & Hrows).
  destruct (filtered_buyers_columns _ _ _ _ _ H5) as (Hp & _ & Hc).
  rewrite Hcols. split; [done|]. split; [done|].
  intros r Hr. rewrite Hrows in Hr. apply list_elem_of_filter in Hr as [_ Hr].
  destruct (filtered_buyers_from _ _ _ _ _ H5 r Hr) as (r0 & col & Hr0 & ->).
  exists r0. split; [done|]. unfold parse_row, add_phone. split.
  - rewrite lookup_insert_ne by py_ne. by rewrite lookup_insert_eq.
  - intros c Hc1 Hc2. by rewrite !lookup_insert_ne by done.
Qed.

(** ** The script: validation and call *)

Lemma nk_bind {A B} (m : result A) (k : A → result B) :
  no_key_error m → (∀ a, m = Ok a → no_key_error (k a)) → no_key_error (m ≫= k).
Proof.
  destruct m as [a|e]; cbn; [auto|]. intros H _ c [= ->]. by apply (H c).
Qed.

Lemma nk_Ok {A} (a : A) : no_key_error (Ok a).
Proof. done. Qed.

Lemma nk_traverse {A B} (f : A → result B) (l : list A) :
  (∀ a, no_key_error (f a)) → no_key_error (traverse f l).
Proof.
  intros Hf. induction l as [|a l IH]; [done|]. cbn [traverse].
  apply nk_bind; [done|]. intros b _. apply nk_bind; [done|]. done.
Qed.

Lemma nk_col_sum (n : nat) (col : list cell) : no_key_error (col_sum n col).
Proof.
  unfold col_sum. apply nk_bind; [|done]. apply nk_traverse. by intros [].
Qed.

Lemma nk_rate (a b : nat) (x : Z) :
  no_key_error match b with
               | O => Ok (Num (Q2Qc 0))
               | S _ => q ← truediv (Num (Qc_of_nat a)) b; Ok (times q x)
               end.
Proof. by destruct b. Qed.

Lemma nk_by_day (conv : frame) :
  (∀ c, c ∈ map py ["created_at"; "order_id"; "_phone"; "total_spent"]%string →
        c ∈ columns conv) →
  no_key_error (by_day_of conv).
Proof.
  intros Hc. unfold by_day_of. rewrite strip_phone.
  rewrite column_returns by (apply Hc; in_list). rewrite ok_bind, map_map.
  destruct (set_column_returns (py "day")
              (λ r, dt_date (cell_at (py "created_at") r)) conv) as [df Hdf].
  rewrite Hdf, ok_bind. apply set_column_Ok in Hdf as (_ & Hday & Hcols).
  rewrite !column_returns by (done || apply Hcols, Hc; in_list).
  rewrite !ok_bind. apply nk_traverse. intros d.
  apply nk_bind; [apply nk_col_sum|done].
Qed.

Lemma nk_aggregate (n : nat) (b R r1 : frame) :
  with_phone R = Ok r1 →
  (∀ c, c ∈ map py ["created_at"; "order_id"; "_phone"; "total_spent";
                    "quantity"]%string → c ∈ columns b) →
  (∀ l, l ∈ rows b → is_Some (l !! py "_phone")) →
  no_key_error (aggregate n b r1).
Proof.
  intros H1 Hc Hkey. unfold aggregate.
  destruct (project [py "_phone"] r1) as [keys|] eqn:Hk.
  2:{ apply with_phone_Ok in H1 as (_ & Hp & _). unfold project in Hk.
      rewrite filter_cons_False in Hk by (intros ?; done). done. }
  rewrite ok_bind.
  destruct (merge_inner b (drop_duplicates keys) (py "_phone")) as [conv|] eqn:Hm.
  2:{ destruct (project_phone_Ok _ _ _ H1 Hk) as [Hkc _]. unfold merge_inner in Hm.
      rewrite decide_True in Hm by (apply Hc; in_list).
      rewrite decide_True in Hm by (cbn [columns drop_duplicates]; rewrite Hkc; in_list).
      done. }
  rewrite ok_bind.
  destruct (merge_reach_Ok _ _ _ _ _ H1 Hk Hkey Hm) as [Hcols _].
  unfold groupby_nunique.
  rewrite !column_returns by (rewrite Hcols; apply Hc; in_list).
  rewrite !ok_bind. cbv zeta.
  apply nk_bind; [apply nk_rate|intros ? _]. rewrite !ok_bind.
  apply nk_bind; [apply nk_col_sum|intros ? _]. rewrite !ok_bind.
  apply nk_bind; [apply nk_col_sum|intros ? _].
  apply nk_bind; [by destruct (nunique _)|intros ? _]. rewrite !ok_bind.
  apply nk_bind; [apply nk_rate|intros ? _].
  apply nk_bind; [|done]. apply nk_by_day.
  intros c Hin. rewrite Hcols. apply Hc. cbn [map] in *.
  repeat (apply elem_of_cons in Hin as [->|Hin]); [in_list..|inversion Hin].
Qed.

Lemma nk_fun (B R : frame) (s e : option Z) (f : option pystr) :
  (∀ c, c ∈ needed_buyers → c ∈ columns B) →
  py "phone_number" ∈ columns R →
  no_key_error (compute_kpis_fun B R s e f).
Proof.
  intros HBc HR. unfold compute_kpis_fun.
  destruct (with_phone_returns B) as [b1 H1]; [apply HBc; in_list|].
  destruct (with_phone_returns R) as [r1 Hr1]; [done|].
  pose proof (with_phone_Ok _ _ H1) as (_ & _ & Hc1).
  rewrite H1, ok_bind, Hr1, ok_bind.
  destruct (item_stage f b1) as [b2|ex] eqn:H2.
  2:{ unfold item_stage in H2. destruct f as [[|ch pat]|]; try done.
      rewrite column_returns in H2 by (apply Hc1, HBc; in_list).
      rewrite ok_bind in H2. unfold str_contains in H2.
      destruct (simple_pattern _); [done|]. destruct (re_error_lib _); [|done].
      cbn in H2. injection H2 as <-. done. }
  rewrite ok_bind.
  pose proof (item_stage_Ok _ _ _ H2) as (Hc2 & _).
  destruct (parse_stage_returns b2) as [b3 H3];
    [rewrite Hc2; apply Hc1, HBc; in_list|].
  pose proof (parse_stage_Ok _ _ H3) as (_ & Hc3).
  assert (py "created_at" ∈ columns b3) as Hca
    by (apply Hc3; rewrite Hc2; apply Hc1, HBc; in_list).
  destruct (bound_stage_returns ge_ts s b3 Hca) as [b4 H4].
  pose proof (bound_stage_Ok _ _ _ _ H4) as (Hc4 & _).
  destruct (bound_stage_returns le_ts e b4) as [b5 H5]; [by rewrite Hc4|].
  rewrite H3, ok_bind, H4, ok_bind, H5, ok_bind.
  assert (filtered_buyers B s e f = Ok b5) as Hfb.
  { unfold filtered_buyers, item_filtered.
    by rewrite H1, ok_bind, H2, ok_bind, H3, ok_bind, H4, ok_bind. }
  destruct (filtered_buyers_columns _ _ _ _ _ Hfb) as (Hp5 & Hca5 & Hc5).
  pose proof (with_phone_Ok _ _ Hr1) as (_ & Hrp & _).
  rewrite (column_returns _ r1 Hrp), ok_bind.
  rewrite (column_returns (py "_phone") b5), ok_bind by done.
  apply (nk_aggregate _ b5 R r1 Hr1).
  - intros c Hc. cbn [map] in Hc.
    repeat (apply elem_of_cons in Hc as [->|Hc]);
      [done | apply Hc5, HBc; in_list | done
      | apply Hc5, HBc; in_list | apply Hc5, HBc; in_list | inversion Hc].
  - intros l Hl. destruct (filtered_buyers_phone _ _ _ _ _ Hfb l Hl) as [-> _].
    by eexists.
Qed.

Lemma missing_nil (needed cols : list pystr) :
  missing needed cols = [] → ∀ c, c ∈ needed → c ∈ cols.
Proof.
  unfold missing. intros Hnil c Hc. destruct (decide (c ∈ cols)); [done|].
  assert (c ∈ filter (λ c, c ∉ cols) needed) as Hin by (by apply list_elem_of_filter).
  rewrite Hnil in Hin. inversion Hin.
Qed.

(** X12.  After the validation of the script, no column is looked up in
    vain: when the page shows the outcome of compute_kpis, both tables
    have their needed columns, the outcome is not a KeyError, and when the
    call returned, the six columns of the converted customers view are
    there. *)
Theorem script_no_key_error (reach_df buyers_df : option frame)
    (start_date end_date : option Z) (item_filter : pystr)
    (res : result (kpis * frame * list daily)) :
  script reach_df buyers_df start_date end_date item_filter = Computed res →
  ∃ B R, buyers_df = Some B ∧ reach_df = Some R ∧
    (∀ c, c ∈ needed_buyers → c ∈ columns B) ∧
    py "phone_number" ∈ columns R ∧
    no_key_error res ∧
    ∀ k conv bd, res = Ok (k, conv, bd) →
      ∃ view, converted_view conv = Ok view ∧
              columns view = map py ["_phone"; "order_id"; "created_at"; "item_name";
                                     "quantity"; "total_spent"]%string.
Proof.
  unfold script. destruct reach_df as [R|], buyers_df as [B|]; try done.
  cbv zeta.
  destruct (missing needed_buyers (columns B)) eqn:Hmb; [|done].
  destruct (missing needed_reach (columns R)) eqn:Hmr; [|done].
  intros [= <-]. exists B, R.
  pose proof (missing_nil _ _ Hmb) as HB.
  assert (py "phone_number" ∈ columns R) as HR
    by (apply (missing_nil _ _ Hmr); in_list).
  repeat split; try done.
  - rewrite call_compute_kpis_fun. by apply nk_fun.
  - intros k conv bd H.
    destruct (converted_records_columns _ _ _ _ _ _ _ _ H) as (Hp & Hc).
    unfold converted_view, project.
    assert (filter (λ c, c ∉ columns conv)
              (map py ["_phone"; "order_id"; "created_at"; "item_name";
                       "quantity"; "total_spent"]%string) = []) as ->.
    { cbn [map]. repeat (rewrite filter_cons_False;
        [|intros Hn; apply Hn; first [done | apply Hc, HB; in_list]]).
      done. }
    by eexists.
Qed.

(** ** The item filter of the script *)

Lemma lstrip_head (s : pystr) :
  lstrip s = [] ∨ ∃ c t, lstrip s = c :: t ∧ isspace c = false.
Proof.
  induction s as [|c s IH]; [by left|]. cbn [lstrip].
  destruct (isspace c) eqn:E; [done|]. right. eauto.
Qed.

Lemma lstrip_snoc (s : pystr) (c : N) :
  isspace c = false → lstrip (s ++ [c]) = lstrip s ++ [c].
Proof.
  intros Hc. induction s as [|a s IH]; cbn [app lstrip].
  - by rewrite Hc.
  - by destruct (isspace a).
Qed.

Lemma lstrip_idemp (s : pystr) : lstrip (lstrip s) = lstrip s.
Proof.
  destruct (lstrip_head s) as [->|(c & t & -> & Hc)]; [done|].
  cbn [lstrip]. by rewrite Hc.
Qed.

Lemma strip_idemp (s : pystr) : strip (strip s) = strip s.
Proof.
  unfold strip.
  destruct (lstrip_head s) as [->|(c & t & -> & Hc)]; [done|].
  rewrite reverse_cons, (lstrip_snoc _ _ Hc), reverse_app.
  change (reverse [c]) with [c]. cbn [app lstrip]. rewrite Hc.
  rewrite reverse_cons, (lstrip_snoc _ _ Hc), reverse_app.
  change (reverse [c]) with [c]. cbn [app].
  by rewrite reverse_involutive, lstrip_idemp.
Qed.

Lemma strip_blank (s : pystr) :
  Forall (λ c, isspace c = true) s → strip s = [].
Proof.
  intros H. unfold strip.
  assert (lstrip s = []) as ->; [|done].
  induction H as [|c s Hc _ IH]; [done|]. cbn [lstrip]. by rewrite Hc.
Qed.

(** X13.  The script hands the item filter over without the white space
    around it: a filter string and the same string with spaces before or
    after it give the same page, and a filter string of white space only
    gives the page of the empty filter string, that is, of no filter. *)
Theorem script_filter_stripped (reach_df buyers_df : option frame)
    (start_date end_date : option Z) (item_filter : pystr) :
  script reach_df buyers_df start_date end_date (strip item_filter)
  = script reach_df buyers_df start_date end_date item_filter ∧
  (Forall (λ c, isspace c = true) item_filter →
   script reach_df buyers_df start_date end_date item_filter
   = script reach_df buyers_df start_date end_date []).
Proof.
  split.
  - unfold script, strip_or_none. by rewrite strip_idemp.
  - intros H. unfold script, strip_or_none. by rewrite (strip_blank _ H).
Qed.

(** ** The reach table as a set of identities *)

Lemma nunique_same (l l' : list cell) :
  (∀ x, x ∈ l ↔ x ∈ l') → nunique l = nunique l'.
Proof.
  intros H. apply Nat.le_antisymm; apply nunique_le; intros x Hx _; by apply H.
Qed.

(** X16.  Only the set of identities of the reach table counts: two reach
    tables with the same identities, in whatever order and however often
    repeated, give the same metrics, the same converted records and the
    same daily breakdown. *)
Theorem reach_is_a_set (B R R' : frame) (s e : option Z) (f : option pystr)
    (k k' : kpis) (conv conv' : frame) (bd bd' : list daily) :
  call_compute_kpis B R s e f = Ok (k, conv, bd) →
  call_compute_kpis B R' s e f = Ok (k', conv', bd') →
  (∀ c, c ∈ map identity_of (rows R) ↔ c ∈ map identity_of (rows R')) →
  k = k' ∧ conv = conv' ∧ bd = bd'.
Proof.
  intros H H' Hset.
  pose proof (call_conv _ _ _ _ _ _ _ _ H) as (b5 & H5 & Hcols & Hrows).
  pose proof (call_conv _ _ _ _ _ _ _ _ H') as (b5' & H5' & Hcols' & Hrows').
  rewrite H5 in H5'. injection H5' as <-.
  assert (conv = conv') as <-.
  { destruct conv, conv'. cbn in *. subst. f_equal.
    apply list_filter_iff. intros r. apply Hset. }
  apply call_aggregate in H as (? & ? & H).
  apply call_aggregate in H' as (? & ? & H').
  rewrite (nunique_same _ _ Hset) in H.
  apply aggregate_Ok in H
    as (? & rs & us & rb & _ & _ & Hbd & Hrs & Hus & Hrb & Hru & Hcu & Hrate
        & Hrev & Hto & Hun & Haov & Hrc & Hrr).
  apply aggregate_Ok in H'
    as (? & rs' & us' & rb' & _ & _ & Hbd' & Hrs' & Hus' & Hrb' & Hru' & Hcu' & Hrate'
        & Hrev' & Hto' & Hun' & Haov' & Hrc' & Hrr').
  rewrite Hbd in Hbd'. injection Hbd' as <-.
  rewrite Hrs in Hrs'. injection Hrs' as <-.
  rewrite Hus in Hus'. injection Hus' as <-.
  rewrite Hrb in Hrb'. injection Hrb' as <-.
  split; [|done].
  destruct k, k'. cbn in *. subst. 
  rewrite Hrate in Hrate'. rewrite Haov in Haov'. rewrite Hrr in Hrr'.
  congruence.
Qed.

(** ** A day and the whole *)

Lemma nunique_pos (col : list cell) (x : cell) :
  x ∈ col → isna x = false → (0 < nunique col)%nat.
Proof.
  intros Hx Hna. unfold nunique.
  assert (x ∈ remove_dups (filter (λ c, isna c = false) col)) as Hin
    by (by apply elem_of_remove_dups, list_elem_of_filter).
  destruct (remove_dups _); [inversion Hin|cbn; lia].
Qed.

(** X17.  A row of the daily breakdown counts at least one buyer, and no
    more buyers and no more orders than the whole call: 1 <= buyers <=
    conv_u and orders <= total_orders; and there are at most as many days
    as converted records. *)
Theorem daily_within_totals (B R : frame) (s e : option Z) (f : option pystr)
    (k : kpis) (conv : frame) (bd : list daily) :
  call_compute_kpis B R s e f = Ok (k, conv, bd) →
  Forall (λ g, (1 ≤ buyers g)%nat ∧ (buyers g ≤ conv_u k)%nat ∧
               (orders g ≤ total_orders k)%nat) bd ∧
  (length bd ≤ length (rows conv))%nat.
Proof.
  intros H. pose proof (conv_phones_reached _ _ _ _ _ _ _ _ H) as Hreached.
  apply call_aggregate in H as (? & ? & H).
  apply aggregate_Ok in H
    as (? & ? & ? & ? & _ & _ & Hbd & _ & _ & _ & _ & Hcu & _ & _ & Hto & _).
  apply by_day_of_Ok in Hbd as (Hsorted & Hdays & Hbd).
  assert (∀ d r, r ∈ rows_on_day conv d → r ∈ rows conv) as Hsub
    by (intros d r Hr; by apply rows_on_day_time in Hr as [? _]).
  split.
  - rewrite Forall_forall in Hbd |- *. intros g Hg.
    destruct (Hbd g Hg) as (Ho & Hb & _). rewrite Ho, Hb, Hcu, Hto.
    split; [|split].
    + assert (day g ∈ map day bd) as Hd
        by (apply list_elem_of_In in Hg; by apply list_elem_of_fmap_2).
      apply Hdays in Hd.
      destruct (rows_on_day conv (day g)) as [|r rs] eqn:E; [done|].
      apply (nunique_pos _ (cell_at (py "_phone") r)); [apply list_elem_of_here|].
      destruct (Hreached r) as [-> _]; [|done].
      apply (Hsub (day g)). rewrite E. apply list_elem_of_here.
    + apply nunique_le. intros c (r & -> & Hr)%list_elem_of_fmap _.
      apply list_elem_of_fmap_2. by eapply Hsub.
    + apply nunique_le. intros c (r & -> & Hr)%list_elem_of_fmap _.
      apply list_elem_of_fmap_2. by eapply Hsub.
  - rewrite <- (length_map day bd).
    assert (NoDup (map day bd)) as Hnd by (by apply StronglySorted_lt_NoDup).
    assert (∀ d, d ∈ map day bd →
              VDate d ∈ map (λ r, dt_date (cell_at (py "created_at") r)) (rows conv))
      as Hin.
    { intros d Hd. apply Hdays in Hd.
      destruct (rows_on_day conv d) as [|r rs] eqn:E; [done|].
      assert (r ∈ rows_on_day conv d) as Hr by (rewrite E; apply list_elem_of_here).
      unfold rows_on_day in Hr. apply list_elem_of_filter in Hr as [<- Hr].
      by apply (list_elem_of_fmap_2 (λ r, dt_date (cell_at (py "created_at") r))). }
    rewrite <- (length_map (λ r, dt_date (cell_at (py "created_at") r)) (rows conv)).
    rewrite <- (length_map VDate (map day bd)).
    apply submseteq_length, NoDup_submseteq.
    + apply NoDup_fmap_2; [|done]. by intros ?? [= ->].
    + intros c (d & -> & Hd)%list_elem_of_fmap. by apply Hin.
Qed.

(** ** When nobody converts *)

Lemma zero_percent (n : nat) (x : Z) :
  times (quotient (Num (Qc_of_nat 0)) n) x = Num (Q2Qc 0).
Proof.
  reflexivity.
Qed.

(** X18.  When there is no converted record, which is so when the buyers
    table or the reach table has no row, the matched buyers, the orders
    and the repeat buyers are 0, the three ratios are 0 and the daily
    breakdown is empty. *)
Theorem nobody_converts (B R : frame) (s e : option Z) (f : option pystr)
    (k : kpis) (conv : frame) (bd : list daily) :
  call_compute_kpis B R s e f = Ok (k, conv, bd) →
  (rows B = [] ∨ rows R = [] → rows conv = []) ∧
  (rows R = [] → reach_u k = 0%nat) ∧
  (rows conv = [] →
     conv_u k = 0%nat ∧ total_orders k = 0%nat ∧ repeat_count k = 0%nat ∧
     conv_rate k = Num (Q2Qc 0) ∧ aov k = Num (Q2Qc 0) ∧
     repeat_rate k = Num (Q2Qc 0) ∧ bd = []).
Proof.
  intros H.
  pose proof (call_conv _ _ _ _ _ _ _ _ H) as (b5 & H5 & _ & Hrows).
  pose proof (filtered_buyers_length _ _ _ _ _ H5) as Hlen.
  apply call_aggregate in H as (? & ? & H).
  apply aggregate_Ok in H
    as (? & ? & ? & rb & _ & _ & Hbd & _ & _ & Hrb & Hru & Hcu & Hrate & _ & Hto & _
        & Haov & Hrc & Hrr).
  split; [|split].
  - intros [HB|HR].
    + rewrite HB in Hlen. destruct (rows b5); [by rewrite Hrows|cbn in Hlen; lia].
    + rewrite Hrows, HR. clear. induction (rows b5) as [|r l IH]; [done|].
      rewrite filter_cons_False; [done|]. intros Hin. inversion Hin.
  - intros HR. by rewrite Hru, HR.
  - intros Hnil. rewrite Hnil in *. cbn in Hcu, Hto.
    assert (repeat_count k = 0%nat) as Hrc0.
    { unfold groupby_nunique in Hrb. inv_ok Hrb. injection Hrb as <-.
      match goal with Hc : column (py "_phone") conv = Ok _ |- _ =>
        apply column_Ok in Hc as [_ ->] end.
      rewrite Hnil in Hrc. by rewrite Hrc. }
    apply rate_Ok in Hrate as [Hz Hnz]. apply ratio_Ok in Haov as [Ha _].
    apply rate_Ok in Hrr as [Hr _].
    repeat split; try done; try (by apply Ha); try (by apply Hr).
    + destruct (reach_u k) as [|n] eqn:En; [by apply Hz|].
      rewrite Hnz by done. rewrite Hcu. apply zero_percent.
    + apply by_day_of_Ok in Hbd as (_ & Hdays & _).
      destruct bd as [|g bd]; [done|].
      assert (day g ∈ map day (g :: bd)) as Hd by apply list_elem_of_here.
      apply Hdays in Hd. unfold rows_on_day in Hd. by rewrite Hnil in Hd.
Qed.

(** ** The item filter and the counts *)

Lemma parsed_selection (col ids : list cell) (l : list (gmap pystr cell)) :
  filter (λ r, cell_at (py "_phone") r ∈ ids) (map (parse_row col) l)
  = map (parse_row col) (filter (λ r, cell_at (py "_phone") r ∈ ids) l).
Proof.
  rewrite filter_map_comm. f_equal. apply list_filter_iff. intros r.
  unfold parse_row. by rewrite cell_at_insert_ne by py_ne.
Qed.

(** X20.  Without date bounds an item filter only removes records: the
    call with a filter has at most as many converted records, matched
    buyers and orders as the call without one on the same tables, and the
    same reach count. *)
Theorem item_filter_only_removes (B R : frame) (f : option pystr)
    (k k0 : kpis) (conv conv0 : frame) (bd bd0 : list daily) :
  call_compute_kpis B R None None f = Ok (k, conv, bd) →
  call_compute_kpis B R None None None = Ok (k0, conv0, bd0) →
  (length (rows conv) ≤ length (rows conv0))%nat ∧
  (conv_u k ≤ conv_u k0)%nat ∧
  (total_orders k ≤ total_orders k0)%nat ∧
  reach_u k = reach_u k0.
Proof.
  intros H H0.
  pose proof (call_conv _ _ _ _ _ _ _ _ H) as (b5 & H5 & _ & Hrows).
  pose proof (call_conv _ _ _ _ _ _ _ _ H0) as (b5' & H5' & _ & Hrows').
  apply filtered_buyers_Ok in H5 as (b2 & H2 & Hb5).
  apply filtered_buyers_Ok in H5' as (b2' & H2' & Hb5').
  apply item_filtered_Ok in H2 as (_ & p & Hp).
  unfold item_filtered in H2'. apply bind_Ok in H2' as (b1 & H1 & H2').
  cbn in H2'. injection H2' as <-.
  apply with_phone_Ok in H1 as (Hr1 & _ & _).
  rewrite filter_all in Hb5, Hb5' by done.
  rewrite Hb5, parsed_selection, Hp in Hrows.
  rewrite Hb5', parsed_selection, Hr1 in Hrows'.
  rewrite filter_filter_comm in Hrows.
  split.
  { rewrite Hrows, Hrows', !length_map. apply length_filter. }
  assert (∀ w, w ≠ py "created_at" → ∀ x,
            x ∈ map (cell_at w) (rows conv) → x ∈ map (cell_at w) (rows conv0)) as Hsub.
  { intros w Hw x (r & -> & Hr)%list_elem_of_fmap.
    rewrite Hrows in Hr. apply list_elem_of_fmap in Hr as (r1 & -> & Hr1').
    apply list_elem_of_filter in Hr1' as [_ Hr1'].
    unfold parse_row at 1. rewrite cell_at_insert_ne by done.
    rewrite Hrows'. apply list_elem_of_fmap.
    eexists. split; [|apply list_elem_of_fmap_2, Hr1'].
    unfold parse_row. by rewrite cell_at_insert_ne by done. }
  apply call_aggregate in H as (? & ? & H). apply call_aggregate in H0 as (? & ? & H0).
  apply aggregate_Ok in H
    as (? & ? & ? & ? & _ & _ & _ & _ & _ & _ & -> & -> & _ & _ & -> & _).
  apply aggregate_Ok in H0
    as (? & ? & ? & ? & _ & _ & _ & _ & _ & _ & -> & -> & _ & _ & -> & _).
  split; [|split; [|done]]; apply nunique_le; intros c Hc _;
    (apply Hsub; [|done]); intros Heq; symmetry in Heq; revert Heq; py_ne.
Qed.

(** ** Exceptions of the call *)


Lemma with_phone_columns (df df' : frame) (c : pystr) :
  with_phone df = Ok df' → c ∈ columns df' → c ∈ columns df ∨ c = py "_phone".
Proof.
  unfold with_phone. intros H Hc. apply bind_Ok in H as (col & _ & H).
  unfold set_column in H. case_decide; [|done]. injection H as <-.
  cbn [columns] in Hc. case_decide; [by left|].
  apply elem_of_app in Hc as [Hc|Hc]; [by left|right].
  by apply list_elem_of_singleton in Hc.
Qed.

Lemma column_raises (c : pystr) (df : frame) :
  c ∉ columns df → column c df = Raise (KeyError c).
Proof. intros H. unfold column. by rewrite decide_False. Qed.

Lemma with_phone_raises (df : frame) :
  py "phone_number" ∉ columns df →
  with_phone df = Raise (KeyError (py "phone_number")).
Proof. intros H. unfold with_phone. by rewrite column_raises. Qed.

(** X21.  compute_kpis does not check its tables: a call on a buyers or
    a reach table without the phone_number column raises KeyError for it,
    the buyers table being looked at first; with a filter string that is
    not empty, a buyers table without item_name raises KeyError for
    item_name; and with no filter, one without created_at raises KeyError
    for created_at. *)
Theorem missing_column_raises (B R : frame) (s e : option Z) (f : option pystr) :
  (py "phone_number" ∉ columns B →
   call_compute_kpis B R s e f = Raise (KeyError (py "phone_number"))) ∧
  (py "phone_number" ∈ columns B → py "phone_number" ∉ columns R →
   call_compute_kpis B R s e f = Raise (KeyError (py "phone_number"))) ∧
  (py "phone_number" ∈ columns B → py "phone_number" ∈ columns R →
   (∃ ch pat, f = Some (ch :: pat)) → py "item_name" ∉ columns B →
   call_compute_kpis B R s e f = Raise (KeyError (py "item_name"))) ∧
  (py "phone_number" ∈ columns B → py "phone_number" ∈ columns R →
   f = None ∨ f = Some [] → py "created_at" ∉ columns B →
   call_compute_kpis B R s e f = Raise (KeyError (py "created_at"))).
Proof.
  rewrite call_compute_kpis_fun. unfold compute_kpis_fun.
  split; [|split; [|split]].
  - intros HB. by rewrite (with_phone_raises B HB).
  - intros HB HR. destruct (with_phone_returns B HB) as [b1 ->].
    by rewrite ok_bind, (with_phone_raises R HR).
  - intros HB HR (ch & pat & ->) Hi.
    destruct (with_phone_returns B HB) as [b1 H1].
    destruct (with_phone_returns R HR) as [r1 ->].
    rewrite H1, !ok_bind. unfold item_stage. rewrite (column_raises (py "item_name") b1); [reflexivity|].
    intros Hc. destruct (with_phone_columns _ _ _ H1 Hc) as [?|Heq]; [done|].
    revert Heq. py_ne.
  - intros HB HR Hf Hi.
    destruct (with_phone_returns B HB) as [b1 H1].
    destruct (with_phone_returns R HR) as [r1 ->].
    rewrite H1, !ok_bind.
    assert (item_stage f b1 = Ok b1) as -> by (by destruct Hf as [->| ->]).
    rewrite ok_bind. unfold parse_stage. rewrite (column_raises (py "created_at") b1); [reflexivity|].
    intros Hc. destruct (with_phone_columns _ _ _ H1 Hc) as [?|Heq]; [done|].
    revert Heq. py_ne.
Qed.


(** ** The validation of the script *)

(** X23.  What the page shows is decided by the uploads and the column
    names alone: the request to upload when a table is not there; the
    buyers error, with exactly the needed columns that the buyers table
    lacks, when there is one; the reach error only when the buyers table
    has all of its columns and the reach table has no phone_number. *)
Theorem script_reports_missing (reach_df buyers_df : option frame)
    (start_date end_date : option Z) (item_filter : pystr) :
  (script reach_df buyers_df start_date end_date item_filter = UploadBoth ↔
   reach_df = None ∨ buyers_df = None) ∧
  (∀ cs, script reach_df buyers_df start_date end_date item_filter = BuyersMissing cs →
     ∃ B, buyers_df = Some B ∧ reach_df ≠ None ∧ cs ≠ [] ∧
          ∀ c, c ∈ cs ↔ c ∈ needed_buyers ∧ c ∉ columns B) ∧
  (∀ cs, script reach_df buyers_df start_date end_date item_filter = ReachMissing cs →
     ∃ B R, buyers_df = Some B ∧ reach_df = Some R ∧
            (∀ c, c ∈ needed_buyers → c ∈ columns B) ∧
            cs = [py "phone_number"] ∧ py "phone_number" ∉ columns R).
Proof.
  unfold script. destruct reach_df as [R|], buyers_df as [B|]; cbv zeta.
  2-4: by (split; [split; [auto|done]|split; intros; done]).
  destruct (missing needed_buyers (columns B)) as [|c0 cs0] eqn:Hmb.
  - destruct (missing needed_reach (columns R)) as [|c1 cs1] eqn:Hmr.
    + split; [split; [done|by intros [|]]|]. by split.
    + split; [split; [done|by intros [|]]|]. split; [done|].
      intros cs [= <-]. exists B, R. split; [done|]. split; [done|].
      split; [by apply missing_nil|].
      unfold missing, needed_reach in Hmr.
      destruct (decide (py "phone_number" ∈ columns R)) as [Hin|Hin].
      * rewrite filter_cons_False in Hmr by (intros Hn; by apply Hn). done.
      * rewrite filter_cons_True in Hmr by done. by injection Hmr as <- <-.
  - split; [split; [done|by intros [|]]|]. split; [|done].
    intros cs [= <-]. exists B. split; [done|]. split; [done|]. split; [done|].
    intros c. rewrite <- Hmb. unfold missing. by rewrite list_elem_of_filter, (comm and).
Qed.

(** ** Daily counts and the whole *)

Lemma nunique_union (l l1 l2 : list cell) :
  (∀ x, x ∈ l → x ∈ l1 ∨ x ∈ l2) → (nunique l ≤ nunique l1 + nunique l2)%nat.
Proof.
  intros H. unfold nunique. rewrite <- length_app.
  apply submseteq_length, NoDup_submseteq; [apply NoDup_remove_dups|].
  intros x. rewrite elem_of_app, !elem_of_remove_dups, !list_elem_of_filter.
  intros [Hna Hx]. destruct (H x Hx); tauto.
Qed.

Lemma nunique_by_day (w key : gmap pystr cell → cell) (days : list Z)
    (l' l : list (gmap pystr cell)) :
  (∀ r, r ∈ l → r ∈ l' ∧ ∃ d, d ∈ days ∧ key r = VDate d) →
  (nunique (map w l)
   ≤ sum_list (map (λ d, nunique (map w (filter (λ r, key r = VDate d) l'))) days))%nat.
Proof.
  revert l. induction days as [|d days IH]; intros l Hl.
  - destruct l as [|r l]; [done|].
    destruct (Hl r) as (_ & d & Hd & _); [apply list_elem_of_here|inversion Hd].
  - cbn [map sum_list].
    etrans; [apply (nunique_union _
                      (map w (filter (λ r, key r = VDate d) l))
                      (map w (filter (λ r, key r ≠ VDate d) l)))|].
    { intros x (r & -> & Hr)%list_elem_of_fmap.
      destruct (decide (key r = VDate d)); [left|right];
        by apply list_elem_of_fmap_2, list_elem_of_filter. }
    apply Nat.add_le_mono.
    + apply nunique_le. intros x (r & -> & [Hk Hr]%list_elem_of_filter)%list_elem_of_fmap _.
      apply list_elem_of_fmap_2, list_elem_of_filter. split; [done|]. by apply Hl.
    + apply IH. intros r [Hk Hr]%list_elem_of_filter.
      destruct (Hl r Hr) as (Hr' & d' & Hd' & Hk'). split; [done|].
      exists d'. split; [|done]. apply elem_of_cons in Hd' as [->|Hd']; done.
Qed.

(** X24.  The daily counts do not add up to the totals, they cover them:
    when every converted record has a parsed date, the buyers of the days
    sum to at least conv_u and the orders of the days to at least
    total_orders, a buyer or an order seen on two days being counted on
    both. *)
Theorem daily_counts_cover (B R : frame) (s e : option Z) (f : option pystr)
    (k : kpis) (conv : frame) (bd : list daily) :
  call_compute_kpis B R s e f = Ok (k, conv, bd) →
  (∀ r, r ∈ rows conv → ∃ t, cell_at (py "created_at") r = VTime t) →
  (conv_u k ≤ sum_list (map buyers bd))%nat ∧
  (total_orders k ≤ sum_list (map orders bd))%nat.
Proof.
  intros H Hdated. apply call_aggregate in H as (? & ? & H).
  apply aggregate_Ok in H
    as (? & ? & ? & ? & _ & _ & Hbd & _ & _ & _ & _ & Hcu & _ & _ & Hto & _).
  apply by_day_of_Ok in Hbd as (_ & Hdays & Hbd).
  assert (∀ r, r ∈ rows conv → r ∈ rows conv ∧
            ∃ d, d ∈ map day bd ∧ dt_date (cell_at (py "created_at") r) = VDate d) as Hkey.
  { intros r Hr. split; [done|]. destruct (Hdated r Hr) as [t Ht].
    exists (t `div` ns_per_day). split; [|by rewrite Ht].
    apply Hdays. intros Hnil.
    assert (r ∈ rows_on_day conv (t `div` ns_per_day)) as Hin
      by (apply rows_on_day_time; eauto).
    rewrite Hnil in Hin. inversion Hin. }
  assert (∀ (h : daily → nat) (w : pystr),
            Forall (λ g, h g = nunique (map (cell_at w) (rows_on_day conv (day g)))) bd →
            (nunique (map (cell_at w) (rows conv)) ≤ sum_list (map h bd))%nat) as Hsum.
  { intros h w Hh.
    etrans; [apply (nunique_by_day (cell_at w)
                      (λ r, dt_date (cell_at (py "created_at") r)) (map day bd)
                      (rows conv) (rows conv) Hkey)|].
    rewrite map_map. apply Nat.eq_le_incl. f_equal. apply map_ext_in.
    intros g Hg. rewrite Forall_forall in Hh. by rewrite (Hh g Hg). }
  rewrite Hcu, Hto. split; apply Hsum; (eapply Forall_impl; [|exact Hbd]); cbn;
    by intros g (? & ? & _).
Qed.

End Properties.

(** * Closed instances *)

(** C4 as stated fails: "97412345" has exactly 8 digits and is returned as
    it is, because it already begins with "974". *)
Lemma norm_phone_8_digits_counterexample :
  let d := py "97412345" in
  length d = 8%nat ∧
  Forall (λ ch, isdigit (L:=ascii_lib) ch = true) d ∧
  norm_phone (L:=ascii_lib) (VStr d) = d ∧
  norm_phone (L:=ascii_lib) (VStr d) ≠ py "974" ++ d.
Proof.
  cbv zeta. split; [reflexivity|]. split; [by repeat constructor|].
  split; [reflexivity|]. vm_compute. discriminate.
Qed.

Lemma norm_phone_8_digits_witness :
  norm_phone (L:=ascii_lib) (VStr (py "12345678")) = py "974" ++ py "12345678".
Proof.
  apply (@norm_phone_8_digits ascii_lib (py "12345678")).
  - reflexivity.
  - by repeat constructor.
  - intros H. apply startswith_prefix in H. vm_compute in H. discriminate.
Defined.


(** C10 at the sample tables: both are where and what they were after the
    call. *)
Lemma compute_kpis_frame_effect_witness :
  let σ' := (compute_kpis (L:=ascii_lib) 0 1 (Some jan1) None (Some (py "widget"))
               [sample_buyers; sample_reach]).2 in
  σ' !! 0%nat = Some sample_buyers ∧ σ' !! 1%nat = Some sample_reach ∧
  ∀ ref df, [sample_buyers; sample_reach] !! ref = Some df → σ' !! ref = Some df.
Proof.
  apply (@compute_kpis_frame_effect ascii_lib [sample_buyers; sample_reach] 0 1);
    reflexivity.
Defined.

(** C5 at the sample tables. *)
Lemma conversion_rate_bounds_witness :
  match call_compute_kpis (L:=ascii_lib) sample_buyers sample_reach None None None with
  | Ok (k, conv, bd) =>
      (conv_u k ≤ reach_u k)%nat ∧
      ∃ q, conv_rate k = Num q ∧ (Q2Qc 0 ≤ q)%Qc ∧ (q ≤ Qc_of_Z 100)%Qc
  | Raise _ => False
  end.
Proof.
  destruct (call_compute_kpis (L:=ascii_lib) sample_buyers sample_reach None None None)
    as [[[k conv] bd]|ex] eqn:E.
  - destruct (@conversion_rate_bounds ascii_lib _ _ _ _ _ _ _ _ E)
      as (_ & _ & Hle & _ & _ & Hq).
    exact (conj Hle Hq).
  - vm_compute in E. discriminate E.
Defined.

(** C8 at the sample tables, where nobody converts: no order and no
    converted identity, and both ratios are 0. *)
Lemma zero_denominators_witness :
  match call_compute_kpis (L:=ascii_lib) unmatched_buyers sample_reach None None None with
  | Ok (k, conv, bd) =>
      total_orders k = 0%nat ∧ conv_u k = 0%nat ∧
      aov k = Num (Q2Qc 0) ∧ repeat_rate k = Num (Q2Qc 0)
  | Raise _ => False
  end.
Proof.
  destruct (call_compute_kpis (L:=ascii_lib) unmatched_buyers sample_reach None None None)
    as [[[k conv] bd]|ex] eqn:E.
  - destruct (@zero_denominators ascii_lib unmatched_buyers sample_reach None None None)
      as [_ H].
    destruct (H k conv bd E) as (Haov & _ & Hrep & _).
    assert (total_orders k = 0%nat ∧ conv_u k = 0%nat) as [Ho Hc].
    { vm_compute in E. injection E as <- _ _. by split. }
    auto.
  - vm_compute in E. discriminate E.
Defined.

(** C6 at the sample tables with a start bound: the order line whose date
    does not parse is not among the converted records. *)
Lemma unparseable_created_at_witness :
  match call_compute_kpis (L:=ascii_lib) sample_buyers sample_reach (Some jan1) None None with
  | Ok (k, conv, bd) =>
      ∀ r, r ∈ rows conv → ∃ t, cell_at (py "created_at") r = VTime t
  | Raise _ => False
  end.
Proof.
  destruct (call_compute_kpis (L:=ascii_lib) sample_buyers sample_reach (Some jan1) None None)
    as [[[k conv] bd]|ex] eqn:E.
  - destruct (@unparseable_created_at ascii_lib _ _ _ _ _ _ _ _ E)
      as (b2 & b5 & _ & _ & _ & _ & Hbound & _ & Hsub & _).
    intros r Hr. apply Hbound; [left; by eexists | by apply Hsub].
  - vm_compute in E. discriminate E.
Defined.

(** C7 at the sample tables. *)
Lemma daily_breakdown_witness :
  match call_compute_kpis (L:=ascii_lib) sample_buyers sample_reach None None None with
  | Ok (k, conv, bd) =>
      StronglySorted Z.lt (map day bd) ∧
      Forall (λ g, buyers g = nunique (map (identity_of (L:=ascii_lib))
                                           (rows_on_day conv (day g)))) bd
  | Raise _ => False
  end.
Proof.
  destruct (call_compute_kpis (L:=ascii_lib) sample_buyers sample_reach None None None)
    as [[[k conv] bd]|ex] eqn:E.
  - destruct (@daily_breakdown ascii_lib _ _ _ _ _ _ _ _ E) as (_ & Hs & _ & Hg).
    split; [exact Hs|]. eapply Forall_impl; [|exact Hg]. by intros g (_ & ? & _).
  - vm_compute in E. discriminate E.
Defined.

(** C2, what the code does.  When nobody converts, and when the one
    converted record has no amount and no quantity, Total revenue and Total
    units are NaN, not 0: [sum(min_count=1)] gives NaN, and NaN being true in
    Python, [or 0] keeps it.  With one order the AOV is NaN as well. *)
Lemma total_revenue_nan :
  match call_compute_kpis (L:=ascii_lib) unmatched_buyers sample_reach None None None with
  | Ok (k, conv, bd) => rows conv = [] ∧ total_revenue k = NaN ∧ total_units k = NaN
  | Raise _ => False
  end ∧
  match call_compute_kpis (L:=ascii_lib) null_amount_buyers sample_reach None None None with
  | Ok (k, conv, bd) =>
      map (cell_at (py "total_spent")) (rows conv) = [VNaN] ∧
      map (cell_at (py "quantity")) (rows conv) = [VNaN] ∧
      total_revenue k = NaN ∧ total_units k = NaN ∧ aov k = NaN
  | Raise _ => False
  end.
Proof. split; vm_compute; repeat split; reflexivity. Qed.

(** C3, what the code does.  The filter string "Widget." is not a substring
    of "WidgetB", yet the order line for WidgetB is kept: pandas reads the
    filter string as a regular expression, in which the dot stands for any
    character. *)
Lemma item_filter_is_regex :
  spec_item_match (py "Widget.") (VStr (py "WidgetB")) = false ∧
  match call_compute_kpis (L:=ascii_lib) widget_b_buyers sample_reach None None
          (Some (py "Widget.")) with
  | Ok (k, conv, bd) =>
      map (cell_at (py "item_name")) (rows conv) = [VStr (py "WidgetB")] ∧
      conv_u k = 1%nat
  | Raise _ => False
  end.
Proof. split; [reflexivity|]. vm_compute. split; reflexivity. Qed.

(** ** Instances of the further properties *)

Lemma norm_phone_separators_witness :
  norm_phone (L:=ascii_lib) (VStr (py "1234" ++ py " - " ++ py "5678"))
  = norm_phone (L:=ascii_lib) (VStr (py "1234" ++ py "5678")).
Proof.
  apply (@norm_phone_separators ascii_lib (py "1234") (py " - ") (py "5678")).
  by repeat constructor.
Defined.

Lemma norm_phone_country_code_witness :
  norm_phone (L:=ascii_lib) (VStr (py "+974 1234 5678"))
  = norm_phone (L:=ascii_lib) (VInt 12345678).
Proof.
  apply (@norm_phone_country_code ascii_lib).
  - reflexivity.
  - reflexivity.
  - intros [t Ht]. vm_compute in Ht. discriminate Ht.
Defined.

Lemma converted_records_selected_witness :
  match call_compute_kpis (L:=ascii_lib) sample_buyers sample_reach None None None with
  | Ok (k, conv, bd) =>
      (length (rows conv) ≤ length (rows sample_buyers))%nat ∧
      (conv_u k ≤ length (rows conv))%nat ∧
      (total_orders k ≤ length (rows conv))%nat
  | Raise _ => False
  end.
Proof.
  destruct (call_compute_kpis (L:=ascii_lib) sample_buyers sample_reach None None None)
    as [[[k conv] bd]|ex] eqn:E.
  - destruct (@converted_records_selected ascii_lib _ _ _ _ _ _ _ _ E)
      as (b5 & _ & _ & H1 & H2 & H3 & H4).
    split; [by etrans|by split].
  - vm_compute in E. discriminate E.
Defined.

Lemma date_window_inclusive_witness :
  match call_compute_kpis (L:=ascii_lib) sample_buyers sample_reach
          (Some jan1) (Some jan2) None with
  | Ok (k, conv, bd) =>
      ∀ r, r ∈ rows conv →
        (∃ t, cell_at (py "created_at") r = VTime t ∧ jan1 ≤ t) ∧
        (∃ t, cell_at (py "created_at") r = VTime t ∧ t ≤ jan2)
  | Raise _ => False
  end.
Proof.
  destruct (call_compute_kpis (L:=ascii_lib) sample_buyers sample_reach
              (Some jan1) (Some jan2) None) as [[[k conv] bd]|ex] eqn:E.
  - destruct (@date_window_inclusive ascii_lib _ _ _ _ _ _ _ _ E) as (Hs & He & _).
    intros r Hr. split; [exact (Hs r jan1 Hr eq_refl)|exact (He r jan2 Hr eq_refl)].
  - vm_compute in E. discriminate E.
Defined.

Lemma date_bounds_only_remove_witness :
  match call_compute_kpis (L:=ascii_lib) sample_buyers sample_reach (Some jan2) None None with
  | Ok (k, conv, bd) =>
      match call_compute_kpis (L:=ascii_lib) sample_buyers sample_reach None None None with
      | Ok (k0, conv0, bd0) =>
          rows conv `sublist_of` rows conv0 ∧ (conv_u k ≤ conv_u k0)%nat ∧
          (total_orders k ≤ total_orders k0)%nat ∧ reach_u k = reach_u k0
      | Raise _ => False
      end
  | Raise _ => False
  end.
Proof.
  destruct (call_compute_kpis (L:=ascii_lib) sample_buyers sample_reach (Some jan2) None None)
    as [[[k conv] bd]|ex] eqn:E.
  - destruct (call_compute_kpis (L:=ascii_lib) sample_buyers sample_reach None None None)
      as [[[k0 conv0] bd0]|ex] eqn:E0.
    + exact (@date_bounds_only_remove ascii_lib _ _ _ _ _ _ _ _ _ _ _ E E0).
    + vm_compute in E0. discriminate E0.
  - vm_compute in E. discriminate E.
Defined.

Lemma repeat_buyers_bounds_witness :
  match call_compute_kpis (L:=ascii_lib) sample_buyers sample_reach None None None with
  | Ok (k, conv, bd) =>
      (repeat_count k ≤ conv_u k)%nat ∧
      ∃ q, repeat_rate k = Num q ∧ (Q2Qc 0 ≤ q)%Qc ∧ (q ≤ Qc_of_Z 100)%Qc
  | Raise _ => False
  end.
Proof.
  destruct (call_compute_kpis (L:=ascii_lib) sample_buyers sample_reach None None None)
    as [[[k conv] bd]|ex] eqn:E.
  - exact (@repeat_buyers_bounds ascii_lib _ _ _ _ _ _ _ _ E).
  - vm_compute in E. discriminate E.
Defined.



Lemma converted_records_keep_values_witness :
  match call_compute_kpis (L:=ascii_lib) sample_buyers sample_reach None None None with
  | Ok (k, conv, bd) =>
      py "_phone" ∈ columns conv ∧
      ∀ r, r ∈ rows conv →
        ∃ r0, r0 ∈ rows sample_buyers ∧
              r !! py "total_spent" = r0 !! py "total_spent"
  | Raise _ => False
  end.
Proof.
  destruct (call_compute_kpis (L:=ascii_lib) sample_buyers sample_reach None None None)
    as [[[k conv] bd]|ex] eqn:E.
  - destruct (@converted_records_keep_values ascii_lib _ _ _ _ _ _ _ _ E)
      as (Hp & _ & Hrows).
    split; [exact Hp|]. intros r Hr. destruct (Hrows r Hr) as (r0 & Hr0 & _ & Hc).
    exists r0. split; [exact Hr0|]. apply Hc; intros H; vm_compute in H; discriminate H.
  - vm_compute in E. discriminate E.
Defined.

Lemma script_no_key_error_witness :
  no_key_error (call_compute_kpis (L:=ascii_lib) sample_buyers sample_reach None None None).
Proof.
  destruct (@script_no_key_error ascii_lib (Some sample_reach) (Some sample_buyers)
              None None []
              (call_compute_kpis (L:=ascii_lib) sample_buyers sample_reach None None None)
              eq_refl)
    as (B & R & _ & _ & _ & _ & H & _).
  exact H.
Defined.

Lemma script_filter_stripped_witness :
  script (L:=ascii_lib) (Some sample_reach) (Some sample_buyers) None None (py "  ")
  = script (L:=ascii_lib) (Some sample_reach) (Some sample_buyers) None None [].
Proof.
  destruct (@script_filter_stripped ascii_lib (Some sample_reach) (Some sample_buyers)
              None None (py "  ")) as [_ H].
  apply H. by repeat constructor.
Defined.

Lemma totals_nan_witness :
  match call_compute_kpis (L:=ascii_lib) null_amount_buyers sample_reach None None None with
  | Ok (k, conv, bd) => total_revenue k = NaN ∧ total_units k = NaN
  | Raise _ => False
  end.
Proof.
  destruct (call_compute_kpis (L:=ascii_lib) null_amount_buyers sample_reach None None None)
    as [[[k conv] bd]|ex] eqn:E.
  - destruct (@totals_nan ascii_lib _ _ _ _ _ _ _ _ E) as [Hrev Hun].
    pose proof E as E'. vm_compute in E'. injection E' as _ <- _.
    split; [apply Hrev|apply Hun]; by repeat constructor.
  - vm_compute in E. discriminate E.
Defined.

Lemma missing_item_never_matches_witness :
  Forall2 (λ c b, (∀ s, c ≠ VStr s) → b = false)
    [VStr (py "WidgetB"); VNaN; VInt 5] [true; false; false].
Proof.
  apply (@missing_item_never_matches ascii_lib (py "widget")). reflexivity.
Defined.

Lemma reach_is_a_set_witness :
  match call_compute_kpis (L:=ascii_lib) sample_buyers sample_reach None None None with
  | Ok (k, conv, bd) =>
      match call_compute_kpis (L:=ascii_lib) sample_buyers shuffled_reach None None None with
      | Ok (k', conv', bd') => k = k' ∧ conv = conv' ∧ bd = bd'
      | Raise _ => False
      end
  | Raise _ => False
  end.
Proof.
  destruct (call_compute_kpis (L:=ascii_lib) sample_buyers sample_reach None None None)
    as [[[k conv] bd]|ex] eqn:E.
  - destruct (call_compute_kpis (L:=ascii_lib) sample_buyers shuffled_reach None None None)
      as [[[k' conv'] bd']|ex] eqn:E'.
    + apply (@reach_is_a_set ascii_lib _ _ _ _ _ _ _ _ _ _ _ _ E E').
      intros c.
      assert (map (identity_of (L:=ascii_lib)) (rows sample_reach)
              = [VStr (py "97412345678"); VStr (py "97412345678");
                 VStr (py "97466660000")]) as -> by reflexivity.
      assert (map (identity_of (L:=ascii_lib)) (rows shuffled_reach)
              = [VStr (py "97466660000"); VStr (py "97412345678")]) as -> by reflexivity.
      rewrite !elem_of_cons, !elem_of_nil. tauto.
    + vm_compute in E'. discriminate E'.
  - vm_compute in E. discriminate E.
Defined.

Lemma daily_within_totals_witness :
  match call_compute_kpis (L:=ascii_lib) sample_buyers sample_reach None None None with
  | Ok (k, conv, bd) =>
      Forall (λ g, (1 ≤ buyers g)%nat ∧ (buyers g ≤ conv_u k)%nat ∧
                   (orders g ≤ total_orders k)%nat) bd ∧
      (length bd ≤ length (rows conv))%nat
  | Raise _ => False
  end.
Proof.
  destruct (call_compute_kpis (L:=ascii_lib) sample_buyers sample_reach None None None)
    as [[[k conv] bd]|ex] eqn:E.
  - exact (@daily_within_totals ascii_lib _ _ _ _ _ _ _ _ E).
  - vm_compute in E. discriminate E.
Defined.

Lemma nobody_converts_witness :
  match call_compute_kpis (L:=ascii_lib) sample_buyers empty_reach None None None with
  | Ok (k, conv, bd) =>
      reach_u k = 0%nat ∧ conv_u k = 0%nat ∧ total_orders k = 0%nat ∧
      conv_rate k = Num (Q2Qc 0) ∧ aov k = Num (Q2Qc 0) ∧ bd = []
  | Raise _ => False
  end.
Proof.
  destruct (call_compute_kpis (L:=ascii_lib) sample_buyers empty_reach None None None)
    as [[[k conv] bd]|ex] eqn:E.
  - destruct (@nobody_converts ascii_lib _ _ _ _ _ _ _ _ E) as (Hconv & Hru & Hzero).
    destruct (Hzero (Hconv (or_intror eq_refl))) as (? & ? & _ & ? & ? & _ & ?).
    repeat split; try done. by apply Hru.
  - vm_compute in E. discriminate E.
Defined.

Lemma item_filter_only_removes_witness :
  match call_compute_kpis (L:=ascii_lib) sample_buyers sample_reach None None
          (Some (py "widgeta")) with
  | Ok (k, conv, bd) =>
      match call_compute_kpis (L:=ascii_lib) sample_buyers sample_reach None None None with
      | Ok (k0, conv0, bd0) =>
          (length (rows conv) ≤ length (rows conv0))%nat ∧
          (conv_u k ≤ conv_u k0)%nat ∧
          (total_orders k ≤ total_orders k0)%nat ∧ reach_u k = reach_u k0
      | Raise _ => False
      end
  | Raise _ => False
  end.
Proof.
  destruct (call_compute_kpis (L:=ascii_lib) sample_buyers sample_reach None None
              (Some (py "widgeta"))) as [[[k conv] bd]|ex] eqn:E.
  - destruct (call_compute_kpis (L:=ascii_lib) sample_buyers sample_reach None None None)
      as [[[k0 conv0] bd0]|ex] eqn:E0.
    + exact (@item_filter_only_removes ascii_lib _ _ _ _ _ _ _ _ _ E E0).
    + vm_compute in E0. discriminate E0.
  - vm_compute in E. discriminate E.
Defined.

Lemma missing_column_raises_witness :
  call_compute_kpis (L:=ascii_lib) sample_reach phones_only None None None
    = Raise (KeyError (py "created_at")) ∧
  call_compute_kpis (L:=ascii_lib) sample_reach phones_only None None (Some (py "widget"))
    = Raise (KeyError (py "item_name")).
Proof.
  split.
  - destruct (@missing_column_raises ascii_lib sample_reach phones_only None None None)
      as (_ & _ & _ & H).
    apply H; [apply list_elem_of_here | apply list_elem_of_here | by left |].
    intros Hin. apply list_elem_of_singleton in Hin. vm_compute in Hin. discriminate Hin.
  - destruct (@missing_column_raises ascii_lib sample_reach phones_only None None
                (Some (py "widget"))) as (_ & _ & H & _).
    apply H; [apply list_elem_of_here | apply list_elem_of_here | by eexists _, _ |].
    intros Hin. apply list_elem_of_singleton in Hin. vm_compute in Hin. discriminate Hin.
Defined.


Lemma script_reports_missing_witness :
  py "order_id" ∈ needed_buyers ∧ py "order_id" ∉ columns phones_only.
Proof.
  destruct (@script_reports_missing ascii_lib (Some sample_reach) (Some phones_only)
              None None []) as (_ & H & _).
  destruct (H _ eq_refl) as (B & HB & _ & _ & Hcs). injection HB as <-.
  apply Hcs. vm_compute. apply list_elem_of_here.
Defined.

Lemma daily_counts_cover_witness :
  match call_compute_kpis (L:=ascii_lib) sample_buyers sample_reach (Some jan1) None None with
  | Ok (k, conv, bd) =>
      (conv_u k ≤ sum_list (map buyers bd))%nat ∧
      (total_orders k ≤ sum_list (map orders bd))%nat
  | Raise _ => False
  end.
Proof.
  destruct (call_compute_kpis (L:=ascii_lib) sample_buyers sample_reach (Some jan1) None None)
    as [[[k conv] bd]|ex] eqn:E.
  - apply (@daily_counts_cover ascii_lib _ _ _ _ _ _ _ _ E).
    pose proof E as E'. vm_compute in E'. injection E' as _ <- _.
    intros r Hr. apply list_elem_of_singleton in Hr as ->. by eexists.
  - vm_compute in E. discriminate E.
Defined.
